(** * Task manager API: ownership-scoped task routes and bearer-token gate

    A shallow embedding of [routes/tasks.js] (the five task handlers) and of
    [middleware/auth.js] ([protect]), with the properties of the
    authentication and resource-ownership layer stated and proved over it.

    The task collection is a list of documents in storage order, the
    request fields are JavaScript values, and every handler is a function
    from the database and the request to an outcome and the next database. *)

From Stdlib Require Import List String Ascii Bool ZArith Arith Lia.
From Stdlib Require Import Permutation Sorted.
From Stdlib Require Import Numbers.DecimalString.
Import ListNotations.

Local Open Scope string_scope.
Local Open Scope list_scope.

(* ===================================================================== *)
(** ** String primitives used by the handlers *)
(* ===================================================================== *)

Module Str.

(** [s.startsWith(p)] *)
Definition startsWith (s p : string) : bool := String.prefix p s.

(** [s.substring(n)]: the suffix from index [n] on. *)
Fixpoint substring_from (n : nat) (s : string) : string :=
  match n, s with
  | O, _ => s
  | S _, EmptyString => EmptyString
  | S k, String _ rest => substring_from k rest
  end.

(** White space removed by [String.prototype.trim] (ASCII range):
    TAB, LF, VT, FF, CR and SPACE. *)
Definition is_space (c : ascii) : bool :=
  let n := nat_of_ascii c in
  (Nat.leb 9 n && Nat.leb n 13) || Nat.eqb n 32.

Fixpoint trim_start (s : string) : string :=
  match s with
  | EmptyString => EmptyString
  | String c rest => if is_space c then trim_start rest else s
  end.

Fixpoint trim_end (s : string) : string :=
  match s with
  | EmptyString => EmptyString
  | String c rest =>
      match trim_end rest with
      | EmptyString => if is_space c then EmptyString else String c EmptyString
      | r => String c r
      end
  end.

(** [s.trim()] *)
Definition trim (s : string) : string := trim_end (trim_start s).

Definition is_empty (s : string) : bool :=
  match s with EmptyString => true | _ => false end.

(** Lower-casing of the ASCII letters, for case-insensitive comparison. *)
Definition lower (c : ascii) : ascii :=
  let n := nat_of_ascii c in
  if Nat.leb 65 n && Nat.leb n 90 then ascii_of_nat (n + 32) else c.

Definition eqb_ci (a b : ascii) : bool := Ascii.eqb (lower a) (lower b).

(** [p] is a prefix of [s], letter case ignored. *)
Fixpoint prefix_ci (p s : string) : bool :=
  match p, s with
  | EmptyString, _ => true
  | String _ _, EmptyString => false
  | String a p', String b s' => eqb_ci a b && prefix_ci p' s'
  end.

(** [p] occurs somewhere in [s], letter case ignored. *)
Fixpoint contains_ci (p s : string) : bool :=
  prefix_ci p s ||
  match s with
  | EmptyString => false
  | String _ s' => contains_ci p s'
  end.

End Str.

(* ===================================================================== *)
(** ** JavaScript values of a parsed JSON body *)
(* ===================================================================== *)

Module Js.

(** A field of [req.body]: missing ([Undefined]), [null], a boolean, an
    integral number or a string. *)
Inductive value : Type :=
| Undefined
| Null
| Bool (b : bool)
| Num (z : Z)
| Str (s : string).

(** ToBoolean: what [if (v)], [!v] and [v || w] test. *)
Definition truthy (v : value) : bool :=
  match v with
  | Undefined | Null => false
  | Bool b => b
  | Num z => negb (Z.eqb z 0)
  | Str s => negb (Str.is_empty s)
  end.

(** [v || w] *)
Definition or (v w : value) : value := if truthy v then v else w.

(** [v !== undefined] *)
Definition defined (v : value) : bool :=
  match v with Undefined => false | _ => true end.

(** [[lit1, lit2, ...].includes(v)] for an array of string literals:
    only a string equal to one of them is included. *)
Definition includes (xs : list string) (v : value) : bool :=
  match v with
  | Str s => existsb (String.eqb s) xs
  | _ => false
  end.

(** A query-string parameter is absent or a string. *)
Definition truthy_param (p : option string) : bool :=
  match p with
  | None => false
  | Some s => negb (Str.is_empty s)
  end.

End Js.

(* ===================================================================== *)
(** ** Data model *)
(* ===================================================================== *)

(** Document identifiers are opaque; only equality is ever used. *)
Definition ObjectId : Type := nat.

Module User.

Record t : Type := mk {
  _id : ObjectId;
  name : string;
  email : string;
  password : string;   (* the stored digest *)
  createdAt : Z
}.

(** [User.findById(id)] on the user collection. *)
Definition findById (users : list t) (id : ObjectId) : option t :=
  find (fun u => Nat.eqb (_id u) id) users.

End User.

(** The user attached to the request: the document less its password
    ([.select('-password')]). *)
Module Identity.

Record t : Type := mk {
  _id : ObjectId;
  name : string;
  email : string;
  createdAt : Z
}.

Definition of_user (u : User.t) : t :=
  mk (User._id u) (User.name u) (User.email u) (User.createdAt u).

End Identity.

(* ===================================================================== *)
(** ** The bearer-token gate: [protect] *)
(* ===================================================================== *)

Module Jwt.

(** What the token carries: the user it was issued to and its validity
    window, in seconds. *)
Record payload : Type := mkPayload {
  userId : ObjectId;
  iat : Z;
  exp : Z
}.

(** The ways [jwt.verify] throws. *)
Inductive failure : Type :=
| Malformed
| InvalidSignature
| TokenExpired.

Inductive result : Type :=
| Decoded (p : payload)
| Throws (e : failure).

Section Verify.

(** How the library reads a token.  Parsing and the signature check are
    left open; the expiry is compared with the clock, in seconds. *)
Variable decode : string -> option payload.
Variable signature_ok : string -> string -> bool.   (* secret, token *)
Variable clock : Z.

Definition expired (p : payload) : bool := (exp p <=? clock)%Z.

(** [jwt.verify(token, secret)]: parse, check the signature, check the
    expiry; the first failing step throws. *)
Definition verify (token secret : string) : result :=
  match decode token with
  | None => Throws Malformed
  | Some p =>
      if negb (signature_ok secret token) then Throws InvalidSignature
      else if expired p then Throws TokenExpired
      else Decoded p
  end.

End Verify.

End Jwt.

Module Auth.

Inductive outcome : Type :=
| Deny (code : nat) (message : string)   (* res.status(code).json({message}) *)
| Attach (user : Identity.t).            (* req.user = user; next() *)

Definition no_token : outcome := Deny 401 "Not authorized, no token provided".
Definition invalid_token : outcome := Deny 401 "Not authorized, invalid token".
Definition user_not_found : outcome := Deny 401 "User not found".

(** The status code of a denial. *)
Definition code_of (o : outcome) : option nat :=
  match o with
  | Deny code _ => Some code
  | Attach _ => None
  end.

Section Protect.

(** [jwt.verify] of the token library and [process.env.JWT_SECRET]. *)
Variable jwt_verify : string -> string -> Jwt.result.
Variable JWT_SECRET : string.

(** [protect]: [authHeader] is [req.headers.authorization]. *)
Definition protect (users : list User.t) (authHeader : option string)
  : outcome :=
  match authHeader with
  | None => no_token
  | Some h =>
      if Str.is_empty h || negb (Str.startsWith h "Bearer ") then no_token
      else
        let token := Str.substring_from 7 h in
        if Str.is_empty token then no_token
        else
          match jwt_verify token JWT_SECRET with
          | Jwt.Throws _ => invalid_token
          | Jwt.Decoded decoded =>
              match User.findById users (Jwt.userId decoded) with
              | None => user_not_found
              | Some user => Attach (Identity.of_user user)
              end
          end
  end.

(** A header that carries a non-empty token after the bearer prefix. *)
Definition bearer (token : string) : option string :=
  Some ("Bearer " ++ token)%string.

End Protect.

End Auth.

(* ===================================================================== *)
(** ** Task documents and the task collection *)
(* ===================================================================== *)

Module Task.

(** A stored task.  [description] is [None] when the stored value is
    [null]; time stamps are milliseconds. *)
Record t : Type := mk {
  _id : ObjectId;
  title : string;
  description : option string;
  status : string;
  user : ObjectId;
  createdAt : Z;
  updatedAt : Z
}.

End Task.

(** What a handler passes to [next(error)]. *)
Inductive error : Type :=
| ValidationError (paths : list string)   (* the document failed validation *)
| RegexError (pattern : string).          (* the store rejected the pattern *)

(** The database as the task routes see it: the collection in storage
    order and the source of fresh identifiers. *)
Record database : Type := mkDb {
  tasks : list Task.t;
  next_id : ObjectId
}.

(** Modelled from the spec: the task schema of [models/Task.js], which is
    not among the sources.  Title: trimmed, required, non-empty.
    Description: string, default empty.  Status: one of three literal
    strings, default [pending].  Owner: required, stamped at creation.
    Created and updated time stamps, the latter refreshed by every save. *)
Module Schema.

Definition statuses : list string := ["pending"; "in-progress"; "completed"].

(** Casting a body value to a string path: strings as they are, booleans
    and numbers printed, [null] and a missing value left empty. *)
Definition castString (v : Js.value) : option string :=
  match v with
  | Js.Undefined | Js.Null => None
  | Js.Bool true => Some "true"
  | Js.Bool false => Some "false"
  | Js.Num z => Some (NilEmpty.string_of_int (Z.to_int z))
  | Js.Str s => Some s
  end.

(** The document held in memory between a lookup and a save: every path
    holds a cast value that is not validated yet. *)
Record doc : Type := mkDoc {
  _id : ObjectId;
  title : option string;
  description : option string;
  status : option string;
  user : ObjectId;
  createdAt : Z;
  updatedAt : Z
}.

Definition of_task (t : Task.t) : doc :=
  mkDoc (Task._id t) (Some (Task.title t)) (Task.description t)
        (Some (Task.status t)) (Task.user t) (Task.createdAt t)
        (Task.updatedAt t).

(** Modelled from the spec: the title path of the schema of
    [models/Task.js] (not among the sources) is trimmed.  [doc.title = v]:
    cast, then trim. *)
Definition set_title (v : Js.value) (d : doc) : doc :=
  mkDoc (_id d) (option_map Str.trim (castString v)) (description d)
        (status d) (user d) (createdAt d) (updatedAt d).

(** [doc.description = v] *)
Definition set_description (v : Js.value) (d : doc) : doc :=
  mkDoc (_id d) (title d) (castString v) (status d) (user d) (createdAt d)
        (updatedAt d).

(** [doc.status = v] *)
Definition set_status (v : Js.value) (d : doc) : doc :=
  mkDoc (_id d) (title d) (description d) (castString v) (user d)
        (createdAt d) (updatedAt d).

Definition title_ok (d : doc) : bool :=
  match title d with
  | None => false
  | Some s => negb (Str.is_empty s)
  end.

Definition status_ok (d : doc) : bool :=
  match status d with
  | None => false
  | Some s => existsb (String.eqb s) statuses
  end.

(** The paths that fail validation. *)
Definition invalid_paths (d : doc) : list string :=
  (if title_ok d then [] else ["title"]) ++
  (if status_ok d then [] else ["status"]).

(** Modelled from the spec: the validators of the schema of
    [models/Task.js] (not among the sources): the title is required and
    not empty, the status is one of the three values.  The result is the
    task a document is stored as, once it validates. *)
Definition validate (d : doc) : error + Task.t :=
  match title d, status d with
  | Some ttl, Some st =>
      if title_ok d && status_ok d
      then inr (Task.mk (_id d) ttl (description d) st (user d)
                        (createdAt d) (updatedAt d))
      else inl (ValidationError (invalid_paths d))
  | _, _ => inl (ValidationError (invalid_paths d))
  end.

(** Modelled from the spec: the defaults of the schema of
    [models/Task.js] (not among the sources): empty description, status
    [pending], both stamps set at creation.  A new document from the
    fields given to [Task.create]. *)
Definition new_doc (id : ObjectId) (now : Z)
    (ttl descr st : Js.value) (owner : ObjectId) : doc :=
  mkDoc id
        (option_map Str.trim (castString ttl))
        (match descr with Js.Undefined => Some "" | _ => castString descr end)
        (match st with Js.Undefined => Some "pending" | _ => castString st end)
        owner now now.

End Schema.

(** The collection operations the routes call on the [Task] model. *)
Module Model.

(** A filter document: [{ _id?, user, title: {$regex, $options: 'i'}?,
    status? }]. *)
Record query : Type := mkQuery {
  q_id : option ObjectId;
  q_user : ObjectId;
  q_title : option string;
  q_status : option string
}.

Definition by_user (owner : ObjectId) : query :=
  mkQuery None owner None None.

Definition by_id_and_user (id owner : ObjectId) : query :=
  mkQuery (Some id) owner None None.

(** [query.title = { $regex: search, $options: 'i' }] *)
Definition with_title (pattern : string) (q : query) : query :=
  mkQuery (q_id q) (q_user q) (Some pattern) (q_status q).

(** [query.status = status] *)
Definition with_status (st : string) (q : query) : query :=
  mkQuery (q_id q) (q_user q) (q_title q) (Some st).

(** Whether a task satisfies a filter whose pattern, if any, compiled to
    [title_matcher]. *)
Definition satisfies (q : query) (title_matcher : option (string -> bool))
    (t : Task.t) : bool :=
  match q_id q with None => true | Some id => Nat.eqb (Task._id t) id end
  && Nat.eqb (Task.user t) (q_user q)
  && match title_matcher with None => true | Some m => m (Task.title t) end
  && match q_status q with None => true | Some st => String.eqb (Task.status t) st end.

(** [.sort({ createdAt: -1 })]: newest first; equal stamps keep their
    storage order. *)
Fixpoint insert_newest_first (t : Task.t) (l : list Task.t) : list Task.t :=
  match l with
  | [] => [t]
  | x :: rest =>
      if (Task.createdAt x <=? Task.createdAt t)%Z then t :: l
      else x :: insert_newest_first t rest
  end.

Definition sort_newest_first (l : list Task.t) : list Task.t :=
  fold_right insert_newest_first [] l.

Section Find.

(** The store's case-insensitive pattern compiler: [None] when it rejects
    the pattern, otherwise the test applied to a title. *)
Variable regex_i : string -> option (string -> bool).

(** [Task.find(query).sort({ createdAt: -1 })] *)
Definition find_sorted (q : query) (coll : list Task.t)
  : error + list Task.t :=
  match q_title q with
  | None => inr (sort_newest_first (filter (satisfies q None) coll))
  | Some pattern =>
      match regex_i pattern with
      | None => inl (RegexError pattern)
      | Some m => inr (sort_newest_first (filter (satisfies q (Some m)) coll))
      end
  end.

End Find.

(** [Task.findOne(query)] for a filter without a pattern: the first match
    in storage order. *)
Definition findOne (q : query) (coll : list Task.t) : option Task.t :=
  find (satisfies q None) coll.

(** Removes the first task satisfying [p]. *)
Fixpoint remove_first (p : Task.t -> bool) (coll : list Task.t)
  : list Task.t :=
  match coll with
  | [] => []
  | x :: rest => if p x then rest else x :: remove_first p rest
  end.

(** [Task.findOneAndDelete(query)]: the deleted task, if any, and the
    collection without it. *)
Definition findOneAndDelete (q : query) (db : database)
  : option Task.t * database :=
  match findOne q (tasks db) with
  | None => (None, db)
  | Some t =>
      (Some t, mkDb (remove_first (satisfies q None) (tasks db)) (next_id db))
  end.

(** [Task.create(fields)]: validate a new document and append it. *)
Definition create (now : Z) (ttl descr st : Js.value) (owner : ObjectId)
    (db : database) : error + (Task.t * database) :=
  match Schema.validate (Schema.new_doc (next_id db) now ttl descr st owner) with
  | inl e => inl e
  | inr t => inr (t, mkDb (tasks db ++ [t]) (S (next_id db)))
  end.

(** Replaces the stored task that has the identifier of [t]. *)
Definition replace (t : Task.t) (coll : list Task.t) : list Task.t :=
  map (fun x => if Nat.eqb (Task._id x) (Task._id t) then t else x) coll.

(** Modelled from the spec: the time stamps of the schema of
    [models/Task.js] (not among the sources); the updated stamp is
    refreshed by every save.  [doc.save()]: validate, refresh the updated
    stamp, write back. *)
Definition save (now : Z) (d : Schema.doc) (db : database)
  : error + (Task.t * database) :=
  match Schema.validate d with
  | inl e => inl e
  | inr t =>
      let t' := Task.mk (Task._id t) (Task.title t) (Task.description t)
                        (Task.status t) (Task.user t) (Task.createdAt t) now in
      inr (t', mkDb (replace t' (tasks db)) (next_id db))
  end.

End Model.

(* ===================================================================== *)
(** ** The task routes ([routes/tasks.js]) *)
(* ===================================================================== *)

Module Routes.

(** [const { title, description, status } = req.body] *)
Record body : Type := mkBody {
  title : Js.value;
  description : Js.value;
  status : Js.value
}.

(** The JSON documents the handlers answer with. *)
Inductive json : Type :=
| Message (message : string)
| TaskOnly (task : Task.t)
| MessageTask (message : string) (task : Task.t)
| CountTasks (count : nat) (found : list Task.t).

Inductive outcome : Type :=
| Json (code : nat) (payload : json)   (* res.status(code).json(payload) *)
| Next (e : error).                    (* next(error) *)

Definition status_literals : list string :=
  ["pending"; "in-progress"; "completed"].

Definition not_found : outcome := Json 404 (Message "Task not found").

Definition title_required : outcome := Json 400 (Message "Title is required").

Definition invalid_status : outcome :=
  Json 400 (Message "Invalid status. Must be: pending, in-progress, or completed").

Section Handlers.

Variable regex_i : string -> option (string -> bool).

(** [GET /]: [search] and [status] are [req.query.search] and
    [req.query.status]. *)
Definition get_tasks (db : database) (req_user : Identity.t)
    (search status : option string) : outcome :=
  let query := Model.by_user (Identity._id req_user) in
  let query :=
    match search with
    | Some pattern =>
        if Js.truthy_param search then Model.with_title pattern query else query
    | None => query
    end in
  let query :=
    match status with
    | Some st =>
        if Js.truthy_param status && Js.includes status_literals (Js.Str st)
        then Model.with_status st query else query
    | None => query
    end in
  match Model.find_sorted regex_i query (tasks db) with
  | inl e => Next e
  | inr found => Json 200 (CountTasks (List.length found) found)
  end.

(** [GET /:id]; [id] is [req.params.id], a document identifier. *)
Definition get_task (db : database) (req_user : Identity.t) (id : ObjectId)
  : outcome :=
  match Model.findOne (Model.by_id_and_user id (Identity._id req_user)) (tasks db) with
  | None => not_found
  | Some task => Json 200 (TaskOnly task)
  end.

(** [POST /] *)
Definition post_task (now : Z) (db : database) (req_user : Identity.t)
    (b : body) : outcome * database :=
  if negb (Js.truthy (title b)) then (title_required, db)
  else
    match Model.create now (title b)
            (Js.or (description b) (Js.Str ""))
            (Js.or (status b) (Js.Str "pending"))
            (Identity._id req_user) db with
    | inl e => (Next e, db)
    | inr (task, db') =>
        (Json 201 (MessageTask "Task created successfully" task), db')
    end.

(** [await task.save(); res.json({ message, task })] *)
Definition save_and_reply (now : Z) (task : Schema.doc) (db : database)
  : outcome * database :=
  match Model.save now task db with
  | inl e => (Next e, db)
  | inr (saved, db') =>
      (Json 200 (MessageTask "Task updated successfully" saved), db')
  end.

(** [PUT /:id].  The looked-up document is a copy held in memory: the
    assignments change the copy and only [save] writes to the store. *)
Definition put_task (now : Z) (db : database) (req_user : Identity.t)
    (id : ObjectId) (b : body) : outcome * database :=
  match Model.findOne (Model.by_id_and_user id (Identity._id req_user)) (tasks db) with
  | None => (not_found, db)
  | Some found =>
      let task := Schema.of_task found in
      let task :=
        if Js.defined (title b) then Schema.set_title (title b) task else task in
      let task :=
        if Js.defined (description b)
        then Schema.set_description (description b) task else task in
      if Js.defined (status b) then
        if Js.includes status_literals (status b)
        then save_and_reply now (Schema.set_status (status b) task) db
        else (invalid_status, db)
      else save_and_reply now task db
  end.

(** [DELETE /:id] *)
Definition delete_task (db : database) (req_user : Identity.t)
    (id : ObjectId) : outcome * database :=
  match Model.findOneAndDelete
          (Model.by_id_and_user id (Identity._id req_user)) db with
  | (None, db') => (not_found, db')
  | (Some _, db') => (Json 200 (Message "Task deleted successfully"), db')
  end.

(** One authenticated request to the router. *)
Inductive request : Type :=
| GetTasks (search status : option string)
| GetTask (id : ObjectId)
| PostTask (b : body)
| PutTask (id : ObjectId) (b : body)
| DeleteTask (id : ObjectId).

Definition handle (now : Z) (db : database) (req_user : Identity.t)
    (r : request) : outcome * database :=
  match r with
  | GetTasks search status => (get_tasks db req_user search status, db)
  | GetTask id => (get_task db req_user id, db)
  | PostTask b => post_task now db req_user b
  | PutTask id b => put_task now db req_user id b
  | DeleteTask id => delete_task db req_user id
  end.

(** The databases the router can bring about from the empty one. *)
Inductive reachable : database -> Prop :=
| reachable_empty : reachable (mkDb [] 0)
| reachable_step (db : database) (now : Z) (req_user : Identity.t)
    (r : request) :
    reachable db -> reachable (snd (handle now db req_user r)).

End Handlers.

(** A refusal of the title: the handler's own answer, or the schema's
    validation error naming the title path. *)
Definition title_refused (o : outcome) : Prop :=
  o = title_required
  \/ exists paths, o = Next (ValidationError paths) /\ In "title" paths.

(** The tasks an answer discloses. *)
Definition disclosed (o : outcome) : list Task.t :=
  match o with
  | Json _ (TaskOnly t) | Json _ (MessageTask _ t) => [t]
  | Json _ (CountTasks _ l) => l
  | _ => []
  end.

End Routes.

(* ===================================================================== *)
(** ** The client's list call ([services/api.js]) *)
(* ===================================================================== *)

Module Api.

(** [params] of the request: a key is present only when it was set. *)
Record params : Type := mkParams {
  search : option string;
  status : option string
}.

(** [taskAPI.getAll(search = '', status = '')]: the query it sends. *)
Definition getAll_params (search status : string) : params :=
  mkParams
    (if negb (Str.is_empty search) then Some search else None)
    (if negb (Str.is_empty status) then Some status else None).

(** The answer to [taskAPI.getAll] from the router. *)
Definition getAll (regex_i : string -> option (string -> bool))
    (db : database) (req_user : Identity.t) (search status : string)
  : Routes.outcome :=
  let p := getAll_params search status in
  Routes.get_tasks regex_i db req_user (Api.search p) (Api.status p).

End Api.

(* ===================================================================== *)
(** ** Sample environment for the closed examples *)
(* ===================================================================== *)

Module Sample.

(** A pattern matcher for the patterns made of literal characters and the
    dot, on which it agrees with the store's engine: a dot stands for any
    character but a line feed, a literal for itself in either letter case,
    and the pattern may match anywhere in the title.  Any pattern with
    another metacharacter is outside its domain and answered [None]. *)
Inductive item : Type :=
| Any
| Lit (c : ascii).

Definition metachar (c : ascii) : bool :=
  existsb (Ascii.eqb c)
    (list_ascii_of_string "\^$*+?()[]{}|").

Fixpoint parse (pattern : string) : option (list item) :=
  match pattern with
  | EmptyString => Some []
  | String c rest =>
      if metachar c then None
      else
        match parse rest with
        | None => None
        | Some items =>
            Some ((if Ascii.eqb c "."%char then Any else Lit c) :: items)
        end
  end.

(** A pattern without a metacharacter and without a dot. *)
Definition plain (pattern : string) : bool :=
  forallb (fun c => negb (metachar c) && negb (Ascii.eqb c "."%char))
          (list_ascii_of_string pattern).

Definition item_matches (i : item) (c : ascii) : bool :=
  match i with
  | Any => negb (Ascii.eqb c (ascii_of_nat 10))
  | Lit l => Str.eqb_ci l c
  end.

Fixpoint matches_here (items : list item) (s : string) : bool :=
  match items, s with
  | [], _ => true
  | _ :: _, EmptyString => false
  | i :: items', String c s' => item_matches i c && matches_here items' s'
  end.

Fixpoint matches_somewhere (items : list item) (s : string) : bool :=
  matches_here items s ||
  match s with
  | EmptyString => false
  | String _ s' => matches_somewhere items s'
  end.

Definition regex_i (pattern : string) : option (string -> bool) :=
  option_map matches_somewhere (parse pattern).

(** The pattern test of the sample store, as a test of term and title. *)
Definition test (term title : string) : bool :=
  match regex_i term with
  | Some m => m title
  | None => false
  end.

(** Tokens as a table: what each one decodes to, and which ones carry a
    signature made with the server's key. *)
Definition decode (token : string) : option Jwt.payload :=
  if String.eqb token "alice" then Some (Jwt.mkPayload 1 0 2592000)
  else if String.eqb token "alice-forged" then Some (Jwt.mkPayload 1 0 2592000)
  else if String.eqb token "alice-old" then Some (Jwt.mkPayload 1 0 100)
  else if String.eqb token "ghost" then Some (Jwt.mkPayload 77 0 2592000)
  else None.

Definition signature_ok (secret token : string) : bool :=
  String.eqb secret "server-key" && negb (String.eqb token "alice-forged").

Definition JWT_SECRET : string := "server-key".

Definition clock : Z := 1000.

Definition protect : list User.t -> option string -> Auth.outcome :=
  Auth.protect (Jwt.verify decode signature_ok clock) JWT_SECRET.

Definition alice : User.t := User.mk 1 "Alice" "alice@example.com" "$2a$12$digest" 0.
Definition bob : User.t := User.mk 2 "Bob" "bob@example.com" "$2a$12$digest" 0.

Definition users : list User.t := [alice; bob].

Definition A : Identity.t := Identity.of_user alice.
Definition B : Identity.t := Identity.of_user bob.

Definition task1 : Task.t := Task.mk 0 "abc" (Some "") "pending" 1 10 10.
Definition task2 : Task.t := Task.mk 1 "Write report" (Some "") "in-progress" 1 20 20.
Definition task3 : Task.t := Task.mk 2 "Buy milk" None "completed" 2 30 30.

Definition db : database := mkDb [task1; task2; task3] 3.

End Sample.

(* ===================================================================== *)
(** ** The list contract in the words of the specification *)
(* ===================================================================== *)

Module Spec.

(** The filter of the list operation: the owner, the title test when a
    search term is supplied, the status when the status filter is one of
    the three values.  [title_test term title] is the title predicate. *)
Definition list_filter (title_test : string -> string -> bool)
    (identity : Identity.t) (searchTerm statusFilter : option string)
    (t : Task.t) : bool :=
  Nat.eqb (Task.user t) (Identity._id identity)
  && match searchTerm with
     | Some term => if Str.is_empty term then true else title_test term (Task.title t)
     | None => true
     end
  && match statusFilter with
     | Some st =>
         if existsb (String.eqb st) Schema.statuses
         then String.eqb (Task.status t) st else true
     | None => true
     end.

(** Newest first. *)
Definition newer_or_equal (x y : Task.t) : Prop :=
  (Task.createdAt y <= Task.createdAt x)%Z.

End Spec.

(* ===================================================================== *)
(** ** Well-formed databases *)
(* ===================================================================== *)

(** Identifiers are unique and below the next fresh one. *)
Definition unique_ids (db : database) : Prop :=
  NoDup (map Task._id (tasks db)).

Definition ids_below_next (db : database) : Prop :=
  Forall (fun t => Task._id t < next_id db) (tasks db).

(** What the schema guarantees of a stored task. *)
Definition task_ok (t : Task.t) : Prop :=
  Str.trim (Task.title t) = Task.title t
  /\ Task.title t <> ""
  /\ In (Task.status t) Schema.statuses.

(** The title of a document in memory is always a trimmed string. *)
Definition doc_trimmed (d : Schema.doc) : Prop :=
  forall s, Schema.title d = Some s -> Str.trim s = s.

Definition well_formed (db : database) : Prop :=
  unique_ids db /\ ids_below_next db /\ Forall task_ok (tasks db).

(* ===================================================================== *)
(** ** The client side: request interceptor and task components *)
(* ===================================================================== *)

(** [api.interceptors.request.use] of [services/api.js]. *)
Module Interceptor.

(** The [Authorization] header of the outgoing request: [stored] is
    [localStorage.getItem('token')] and [header] what the request carried
    before. *)
Definition authorization (stored header : option string) : option string :=
  match stored with
  | Some token =>
      if Str.is_empty token then header else Some ("Bearer " ++ token)%string
  | None => header
  end.

End Interceptor.

(** [components/TaskCard.jsx]. *)
Module TaskCard.

(** [getStatusColor]: a [switch] whose [default] shares the [pending]
    case. *)
Definition getStatusColor (status : string) : string :=
  if String.eqb status "completed" then "bg-green-100 text-green-800"
  else if String.eqb status "in-progress" then "bg-blue-100 text-blue-800"
  else "bg-yellow-100 text-yellow-800".

(** [s.replace(from, to)] with one-character strings: the first
    occurrence only. *)
Fixpoint replace_first (from to : ascii) (s : string) : string :=
  match s with
  | EmptyString => EmptyString
  | String c rest =>
      if Ascii.eqb c from then String to rest
      else String c (replace_first from to rest)
  end.

(** The badge text: [task.status.replace('-', ' ')]. *)
Definition status_label (status : string) : string :=
  replace_first "-"%char " "%char status.

(** How often a character occurs. *)
Fixpoint occurrences (c : ascii) (s : string) : nat :=
  match s with
  | EmptyString => 0
  | String d rest => (if Ascii.eqb d c then 1 else 0) + occurrences c rest
  end.

End TaskCard.

(** [components/TaskFilters.jsx]. *)
Module TaskFilters.

(** [(search || statusFilter) && <button>]: whether the clear button is
    rendered. *)
Definition shows_clear (search statusFilter : string) : bool :=
  negb (Str.is_empty (if negb (Str.is_empty search) then search else statusFilter)).

(** The button's [onClick]: both fields become the empty string. *)
Definition clear : string * string := ("", "").

End TaskFilters.

(** [components/TaskList.jsx] and the task area of [pages/Dashboard.jsx]. *)
Module Dashboard.

(** What the task area shows. *)
Inductive view : Type :=
| Loading
| Notice (text : string)
| Cards (keys : list ObjectId) (shown : list Task.t).

(** [TaskList]: a notice for no tasks, otherwise one card per task, keyed
    by its identifier. *)
Definition TaskList (tasks : list Task.t) : view :=
  if Nat.eqb (List.length tasks) 0 then Notice "No tasks found."
  else Cards (map Task._id tasks) tasks.

(** The task area of the dashboard. *)
Definition task_area (loading : bool) (tasks : list Task.t)
    (search statusFilter : string) : view :=
  if loading then Loading
  else if Nat.eqb (List.length tasks) 0 then
    Notice (if negb (Str.is_empty
                       (if negb (Str.is_empty search) then search else statusFilter))
            then "No tasks found matching your filters."
            else "No tasks yet. Create your first task!")
  else TaskList tasks.

End Dashboard.

(** Whether an answer reports success. *)
Definition succeeded (o : Routes.outcome) : bool :=
  match o with
  | Routes.Json 200 _ | Routes.Json 201 _ => true
  | _ => false
  end.

(* ===================================================================== *)
(** * Proofs *)
(* ===================================================================== *)

(** ** The definitions on small inputs *)

Example trim_both_ends : Str.trim "  a b  " = "a b".
Proof. reflexivity. Qed.

Example trim_only_spaces : Str.trim "   " = "".
Proof. reflexivity. Qed.

Example substring_after_prefix : Str.substring_from 7 "Bearer abc" = "abc".
Proof. reflexivity. Qed.

Example truthy_blank_string : Js.truthy (Js.Str "   ") = true.
Proof. reflexivity. Qed.

Example falsy_values :
  map Js.truthy [Js.Undefined; Js.Null; Js.Bool false; Js.Num 0; Js.Str ""]
  = [false; false; false; false; false].
Proof. reflexivity. Qed.

Example includes_is_exact :
  Js.includes Routes.status_literals (Js.Str "in-progress") = true
  /\ Js.includes Routes.status_literals (Js.Str "In-Progress") = false
  /\ Js.includes Routes.status_literals Js.Null = false.
Proof. repeat split. Qed.

Example sample_admits_alice :
  Sample.protect Sample.users (Auth.bearer "alice")
  = Auth.Attach Sample.A.
Proof. reflexivity. Qed.

Example sample_list_is_newest_first :
  Routes.get_tasks Sample.regex_i Sample.db Sample.A None None
  = Routes.Json 200 (Routes.CountTasks 2 [Sample.task2; Sample.task1]).
Proof. reflexivity. Qed.

Example sample_list_by_status :
  Routes.get_tasks Sample.regex_i Sample.db Sample.A None (Some "completed")
  = Routes.Json 200 (Routes.CountTasks 0 []).
Proof. reflexivity. Qed.

(** ** Empty strings *)

Lemma is_empty_true (s : string) : Str.is_empty s = true <-> s = "".
Proof. destruct s; simpl; split; congruence. Qed.

Lemma is_empty_false (s : string) : Str.is_empty s = false <-> s <> "".
Proof. destruct s; simpl; split; congruence. Qed.

(** ** Trimming *)

Lemma trim_start_head (s : string) :
  Str.trim_start s = ""
  \/ exists c rest, Str.trim_start s = String c rest /\ Str.is_space c = false.
Proof.
  induction s as [|c rest IH]; simpl.
  - now left.
  - destruct (Str.is_space c) eqn:E; [exact IH|].
    right. now exists c, rest.
Qed.

Lemma trim_start_fixed (c : ascii) (rest : string) :
  Str.is_space c = false -> Str.trim_start (String c rest) = String c rest.
Proof. intros E. simpl. now rewrite E. Qed.

Lemma trim_end_cons (c : ascii) (rest : string) :
  Str.is_space c = false ->
  Str.trim_end (String c rest) = String c (Str.trim_end rest).
Proof.
  intros E. simpl. destruct (Str.trim_end rest); [now rewrite E|reflexivity].
Qed.

Lemma trim_end_idempotent (s : string) :
  Str.trim_end (Str.trim_end s) = Str.trim_end s.
Proof.
  induction s as [|c rest IH]; [reflexivity|].
  simpl. destruct (Str.trim_end rest) as [|d r] eqn:E.
  - destruct (Str.is_space c) eqn:Ec; [reflexivity|].
    simpl. now rewrite Ec.
  - change (Str.trim_end (String c (String d r)) = String c (String d r)).
    simpl. simpl in IH. rewrite IH. reflexivity.
Qed.

Lemma trim_idempotent (s : string) : Str.trim (Str.trim s) = Str.trim s.
Proof.
  unfold Str.trim.
  destruct (trim_start_head s) as [E | (c & rest & E & Hc)]; rewrite E.
  - reflexivity.
  - rewrite (trim_end_cons _ _ Hc), (trim_start_fixed _ _ Hc).
    rewrite <- (trim_end_cons _ _ Hc). apply trim_end_idempotent.
Qed.

(** ** Membership in the literal status list *)

Lemma existsb_eqb_In (s : string) (l : list string) :
  existsb (String.eqb s) l = true <-> In s l.
Proof.
  rewrite existsb_exists. split.
  - intros (x & Hin & Heq). apply String.eqb_eq in Heq. now subst.
  - intros Hin. exists s. split; [assumption|apply String.eqb_refl].
Qed.

Lemma includes_Str (v : Js.value) (l : list string) :
  Js.includes l v = true -> exists s, v = Js.Str s /\ In s l.
Proof.
  destruct v; simpl; try discriminate.
  intros H. apply existsb_eqb_In in H. eauto.
Qed.

(** ** The bearer-token gate *)

(** What the middleware does with a bearer header, whatever the token
    library is. *)
Section ProtectSource.

Variable jwt_verify : string -> string -> Jwt.result.
Variable JWT_SECRET : string.

Let protect := Auth.protect jwt_verify JWT_SECRET.

Lemma protect_bearer (users : list User.t) (token : string) :
  token <> "" ->
  protect users (Auth.bearer token) =
    match jwt_verify token JWT_SECRET with
    | Jwt.Throws _ => Auth.invalid_token
    | Jwt.Decoded decoded =>
        match User.findById users (Jwt.userId decoded) with
        | None => Auth.user_not_found
        | Some user => Auth.Attach (Identity.of_user user)
        end
    end.
Proof.
  intros Hne. destruct token as [|c rest]; [congruence|]. reflexivity.
Qed.

(** The inner [catch] turns every throw of [jwt.verify] into the one
    invalid-token denial. *)
Lemma protect_catches (users : list User.t) (token : string) (e : Jwt.failure) :
  token <> "" ->
  jwt_verify token JWT_SECRET = Jwt.Throws e ->
  protect users (Auth.bearer token) = Auth.invalid_token.
Proof.
  intros Hne Hthrow. rewrite (protect_bearer users token Hne), Hthrow.
  reflexivity.
Qed.

(** A header without the bearer prefix, or with nothing after it, is
    answered as a missing token before the library is called. *)
Lemma protect_no_token (users : list User.t) :
  protect users None = Auth.no_token
  /\ protect users (Some "") = Auth.no_token
  /\ protect users (Some "Bearer ") = Auth.no_token
  /\ forall h, Str.startsWith h "Bearer " = false ->
               protect users (Some h) = Auth.no_token.
Proof.
  repeat split. intros h Hp. unfold protect, Auth.protect.
  rewrite Hp. simpl. now rewrite orb_true_r.
Qed.

End ProtectSource.

Section ProtectFacts.

Variable decode : string -> option Jwt.payload.
Variable signature_ok : string -> string -> bool.
Variable JWT_SECRET : string.
Variable clock : Z.

Let verify := Jwt.verify decode signature_ok clock.
Let protect := Auth.protect verify JWT_SECRET.

Lemma verify_decoded (token : string) (p : Jwt.payload) :
  verify token JWT_SECRET = Jwt.Decoded p <->
  decode token = Some p
  /\ signature_ok JWT_SECRET token = true
  /\ Jwt.expired clock p = false.
Proof.
  unfold verify, Jwt.verify.
  destruct (decode token) as [q|]; [|split; [discriminate|intros (H & _); discriminate]].
  destruct (signature_ok JWT_SECRET token); simpl.
  - destruct (Jwt.expired clock q) eqn:E; split.
    + discriminate.
    + intros (H & _ & H'). injection H as ->. congruence.
    + intros H. injection H as ->. auto.
    + intros (H & _). congruence.
  - split; [discriminate|intros (_ & H & _); discriminate].
Qed.

Lemma verify_throws (token : string) :
  decode token = None
  \/ signature_ok JWT_SECRET token = false
  \/ (exists p, decode token = Some p /\ Jwt.expired clock p = true) ->
  exists e, verify token JWT_SECRET = Jwt.Throws e.
Proof.
  unfold verify, Jwt.verify.
  intros [H | [H | (p & H & Hexp)]].
  - rewrite H. eauto.
  - rewrite H. destruct (decode token); simpl; eauto.
  - rewrite H, Hexp. destruct (signature_ok JWT_SECRET token); simpl; eauto.
Qed.

(** C4.  A header carrying a token that cannot be parsed, or whose
    signature does not verify, or that is expired (whatever its signature),
    is answered with the invalid-token denial; the user collection decides
    the answer only for a token that passes all three checks. *)
Theorem protect_rejects_unverified_tokens
    (users : list User.t) (token : string) :
  token <> "" ->
  (decode token = None
   \/ signature_ok JWT_SECRET token = false
   \/ (exists p, decode token = Some p /\ Jwt.expired clock p = true) ->
   protect users (Auth.bearer token) = Auth.invalid_token)
  /\ (forall p,
        decode token = Some p ->
        signature_ok JWT_SECRET token = true ->
        Jwt.expired clock p = false ->
        protect users (Auth.bearer token) =
          match User.findById users (Jwt.userId p) with
          | None => Auth.user_not_found
          | Some user => Auth.Attach (Identity.of_user user)
          end)
  /\ (protect users (Auth.bearer token) <> Auth.invalid_token ->
      exists p,
        decode token = Some p
        /\ signature_ok JWT_SECRET token = true
        /\ Jwt.expired clock p = false).
Proof.
  intros Hne. unfold protect. split; [|split].
  - intros Hfail. destruct (verify_throws token Hfail) as (e & Hthrow).
    now apply (protect_catches verify JWT_SECRET users token e).
  - rewrite (protect_bearer verify JWT_SECRET users token Hne).
    intros p Hd Hs He.
    assert (Hv : verify token JWT_SECRET = Jwt.Decoded p)
      by (apply verify_decoded; auto).
    rewrite Hv. reflexivity.
  - rewrite (protect_bearer verify JWT_SECRET users token Hne).
    destruct (verify token JWT_SECRET) as [p|e] eqn:Hv.
    + intros _. exists p. now apply verify_decoded.
    + intros H. now contradiction H.
Qed.

(** C5, as the middleware has it.  A token that parses, verifies and is
    not expired, but names no stored user, is denied with status 401, the
    status of the invalid-token denial, and with the message
    [User not found], which is not the invalid-token message. *)
Theorem protect_unknown_user
    (users : list User.t) (token : string) (p : Jwt.payload) :
  token <> "" ->
  decode token = Some p ->
  signature_ok JWT_SECRET token = true ->
  Jwt.expired clock p = false ->
  User.findById users (Jwt.userId p) = None ->
  protect users (Auth.bearer token) = Auth.Deny 401 "User not found"
  /\ Auth.code_of (protect users (Auth.bearer token))
     = Auth.code_of Auth.invalid_token
  /\ protect users (Auth.bearer token) <> Auth.invalid_token.
Proof.
  intros Hne Hd Hs He Hu.
  assert (Hv : verify token JWT_SECRET = Jwt.Decoded p)
    by (apply verify_decoded; auto).
  unfold protect.
  rewrite (protect_bearer verify JWT_SECRET users token Hne), Hv, Hu.
  repeat split. discriminate.
Qed.

End ProtectFacts.

(** Witness of C4 on the sample tokens: a forged, an expired and an
    unparsable token are all denied as invalid. *)
Lemma protect_rejects_unverified_tokens_witness :
  Sample.protect Sample.users (Auth.bearer "alice-forged") = Auth.invalid_token
  /\ Sample.protect Sample.users (Auth.bearer "alice-old") = Auth.invalid_token
  /\ Sample.protect Sample.users (Auth.bearer "no.such.token") = Auth.invalid_token.
Proof.
  split; [|split].
  - apply (protect_rejects_unverified_tokens Sample.decode Sample.signature_ok
             Sample.JWT_SECRET Sample.clock Sample.users "alice-forged");
      [discriminate|]. right; left. reflexivity.
  - apply (protect_rejects_unverified_tokens Sample.decode Sample.signature_ok
             Sample.JWT_SECRET Sample.clock Sample.users "alice-old");
      [discriminate|]. right; right.
    exists (Jwt.mkPayload 1 0 100). split; reflexivity.
  - apply (protect_rejects_unverified_tokens Sample.decode Sample.signature_ok
             Sample.JWT_SECRET Sample.clock Sample.users "no.such.token");
      [discriminate|]. left. reflexivity.
Defined.

(** Witness of the amended C5: the sample token of a user that is not
    stored. *)
Lemma protect_unknown_user_witness :
  Sample.protect Sample.users (Auth.bearer "ghost") = Auth.Deny 401 "User not found"
  /\ Auth.code_of (Sample.protect Sample.users (Auth.bearer "ghost"))
     = Auth.code_of Auth.invalid_token
  /\ Sample.protect Sample.users (Auth.bearer "ghost") <> Auth.invalid_token.
Proof.
  apply (protect_unknown_user Sample.decode Sample.signature_ok
           Sample.JWT_SECRET Sample.clock Sample.users "ghost"
           (Jwt.mkPayload 77 0 2592000));
    [discriminate | reflexivity | reflexivity | reflexivity | reflexivity].
Defined.

(** C5 as the specification states it fails: the answer to a valid token
    of a missing user differs from the answer to a forged token. *)
Lemma unknown_user_is_distinguishable :
  Sample.protect Sample.users (Auth.bearer "ghost")
    = Auth.Deny 401 "User not found"
  /\ Sample.protect Sample.users (Auth.bearer "alice-forged")
    = Auth.Deny 401 "Not authorized, invalid token"
  /\ Sample.protect Sample.users (Auth.bearer "ghost")
    <> Sample.protect Sample.users (Auth.bearer "alice-forged").
Proof.
  split; [reflexivity|]. split; [reflexivity|]. discriminate.
Qed.

(** ** Lookups in the collection *)

Lemma satisfies_id_user (id owner : ObjectId) (t : Task.t) :
  Model.satisfies (Model.by_id_and_user id owner) None t = true <->
  Task._id t = id /\ Task.user t = owner.
Proof.
  unfold Model.satisfies, Model.by_id_and_user; simpl.
  rewrite !andb_true_r, andb_true_iff, !Nat.eqb_eq. reflexivity.
Qed.

Lemma findOne_some (id owner : ObjectId) (coll : list Task.t) (t : Task.t) :
  Model.findOne (Model.by_id_and_user id owner) coll = Some t ->
  In t coll /\ Task._id t = id /\ Task.user t = owner.
Proof.
  unfold Model.findOne. intros H. apply find_some in H.
  destruct H as (Hin & Hsat). apply satisfies_id_user in Hsat. tauto.
Qed.

Lemma findOne_none (id owner : ObjectId) (coll : list Task.t) :
  Model.findOne (Model.by_id_and_user id owner) coll = None <->
  forall t, In t coll -> ~ (Task._id t = id /\ Task.user t = owner).
Proof.
  unfold Model.findOne. split.
  - intros H t Hin Hsat. apply satisfies_id_user in Hsat.
    pose proof (find_none _ _ H t Hin) as Hf. congruence.
  - intros H. destruct (find _ coll) as [t|] eqn:E; [|reflexivity].
    apply find_some in E. destruct E as (Hin & Hsat).
    apply satisfies_id_user in Hsat. now destruct (H t Hin).
Qed.

Lemma unique_ids_same (coll : list Task.t) (x y : Task.t) :
  NoDup (map Task._id coll) ->
  In x coll -> In y coll -> Task._id x = Task._id y -> x = y.
Proof.
  induction coll as [|h rest IH]; simpl; [contradiction|].
  intros Hnd [Hx | Hx] [Hy | Hy] Heq; inversion Hnd as [|? ? Hnotin Hrest]; subst.
  - reflexivity.
  - exfalso. apply Hnotin. rewrite Heq. now apply in_map.
  - exfalso. apply Hnotin. rewrite <- Heq. now apply in_map.
  - now apply IH.
Qed.

(** With unique identifiers the owner's lookup finds the very task. *)
Lemma findOne_owner (coll : list Task.t) (x : Task.t) :
  NoDup (map Task._id coll) -> In x coll ->
  Model.findOne (Model.by_id_and_user (Task._id x) (Task.user x)) coll = Some x.
Proof.
  intros Hnd Hin.
  destruct (Model.findOne _ coll) as [t|] eqn:E.
  - apply findOne_some in E. destruct E as (Ht & Hid & _).
    f_equal. now apply (unique_ids_same coll).
  - exfalso. rewrite findOne_none in E. now apply (E x Hin).
Qed.

(** With unique identifiers nobody else's lookup finds it. *)
Lemma findOne_stranger (coll : list Task.t) (x : Task.t) (owner : ObjectId) :
  NoDup (map Task._id coll) -> In x coll -> owner <> Task.user x ->
  Model.findOne (Model.by_id_and_user (Task._id x) owner) coll = None.
Proof.
  intros Hnd Hin Hneq. apply findOne_none. intros t Ht (Hid & Hu).
  assert (t = x) by now apply (unique_ids_same coll). subst. congruence.
Qed.

(** A lookup that finds something whenever a matching task is stored. *)
Lemma findOne_finds (coll : list Task.t) (x : Task.t) :
  In x coll ->
  exists t, Model.findOne
              (Model.by_id_and_user (Task._id x) (Task.user x)) coll = Some t.
Proof.
  intros Hin. destruct (Model.findOne _ coll) as [t|] eqn:E; [eauto|].
  exfalso. rewrite findOne_none in E. now apply (E x Hin).
Qed.

(** ** Removal and replacement *)

Lemma remove_first_keeps (p : Task.t -> bool) (coll : list Task.t) (t : Task.t) :
  In t coll -> p t = false -> In t (Model.remove_first p coll).
Proof.
  induction coll as [|h rest IH]; simpl; [contradiction|].
  intros [-> | Hin] Hp.
  - rewrite Hp. now left.
  - destruct (p h); [assumption|]. right. now apply IH.
Qed.

Lemma remove_first_subset (p : Task.t -> bool) (coll : list Task.t) (t : Task.t) :
  In t (Model.remove_first p coll) -> In t coll.
Proof.
  induction coll as [|h rest IH]; simpl; [contradiction|].
  destruct (p h); [now right|]. intros [-> | Hin]; [now left|right; now apply IH].
Qed.

Lemma remove_first_ids (p : Task.t -> bool) (coll : list Task.t) :
  NoDup (map Task._id coll) -> NoDup (map Task._id (Model.remove_first p coll)).
Proof.
  induction coll as [|h rest IH]; simpl; [trivial|].
  intros Hnd. inversion Hnd as [|? ? Hnotin Hrest]; subst.
  destruct (p h); [assumption|]. simpl. constructor; [|now apply IH].
  intros Hin. apply Hnotin. apply in_map_iff in Hin.
  destruct Hin as (t & Hid & Ht). apply remove_first_subset in Ht.
  rewrite <- Hid. now apply in_map.
Qed.

(** Once the first match is removed from a collection with unique
    identifiers, no task with that identifier is left. *)
Lemma remove_first_by_id (id owner : ObjectId) (coll : list Task.t) (x t : Task.t) :
  NoDup (map Task._id coll) ->
  Model.findOne (Model.by_id_and_user id owner) coll = Some x ->
  In t (Model.remove_first
          (Model.satisfies (Model.by_id_and_user id owner) None) coll) ->
  Task._id t <> id.
Proof.
  unfold Model.findOne.
  induction coll as [|h rest IH]; simpl; [contradiction|].
  intros Hnd. inversion Hnd as [|? ? Hnotin Hrest]; subst.
  destruct (Model.satisfies _ None h) eqn:Hsat.
  - intros _ Hin Hid. apply satisfies_id_user in Hsat. destruct Hsat as (Hh & _).
    apply Hnotin. rewrite Hh, <- Hid. now apply in_map.
  - intros Hfind [<- | Hin].
    + intros Hid. apply find_some in Hfind. destruct Hfind as (Hx & Hs).
      apply satisfies_id_user in Hs. destruct Hs as (Hxid & _).
      apply Hnotin. rewrite Hid, <- Hxid. now apply in_map.
    + now apply IH.
Qed.

Lemma replace_ids (t : Task.t) (coll : list Task.t) :
  map Task._id (Model.replace t coll) = map Task._id coll.
Proof.
  unfold Model.replace. rewrite map_map. apply map_ext_in.
  intros x _. destruct (Nat.eqb (Task._id x) (Task._id t)) eqn:E; [|reflexivity].
  apply Nat.eqb_eq in E. now symmetry.
Qed.

Lemma replace_keeps (t : Task.t) (coll : list Task.t) (x : Task.t) :
  In x coll -> Task._id x <> Task._id t -> In x (Model.replace t coll).
Proof.
  intros Hin Hneq. unfold Model.replace. apply in_map_iff. exists x.
  split; [|assumption]. apply Nat.eqb_neq in Hneq. now rewrite Hneq.
Qed.

Lemma replace_in (t : Task.t) (coll : list Task.t) (x : Task.t) :
  In x (Model.replace t coll) -> x = t \/ (In x coll /\ Task._id x <> Task._id t).
Proof.
  unfold Model.replace. intros Hin. apply in_map_iff in Hin.
  destruct Hin as (y & Hy & Hin).
  destruct (Nat.eqb (Task._id y) (Task._id t)) eqn:E.
  - left. congruence.
  - right. subst. split; [assumption|]. now apply Nat.eqb_neq.
Qed.

Lemma replace_puts (t : Task.t) (coll : list Task.t) :
  In (Task._id t) (map Task._id coll) -> In t (Model.replace t coll).
Proof.
  intros Hin. apply in_map_iff in Hin. destruct Hin as (y & Hid & Hy).
  unfold Model.replace. apply in_map_iff. exists y. split; [|assumption].
  apply Nat.eqb_eq in Hid. now rewrite Hid.
Qed.

(** ** Validation and saving *)

Lemma validate_inr (d : Schema.doc) (t : Task.t) :
  Schema.validate d = inr t ->
  Schema.title d = Some (Task.title t)
  /\ Task.title t <> ""
  /\ Schema.status d = Some (Task.status t)
  /\ In (Task.status t) Schema.statuses
  /\ t = Task.mk (Schema._id d) (Task.title t) (Schema.description d)
                 (Task.status t) (Schema.user d) (Schema.createdAt d)
                 (Schema.updatedAt d).
Proof.
  unfold Schema.validate, Schema.title_ok, Schema.status_ok.
  destruct (Schema.title d) as [ttl|]; [|discriminate].
  destruct (Schema.status d) as [st|]; [|discriminate].
  destruct (negb (Str.is_empty ttl)) eqn:Et; [|discriminate].
  destruct (existsb (String.eqb st) Schema.statuses) eqn:Es; [|discriminate].
  assert (Hin : In st Schema.statuses) by now apply existsb_eqb_In.
  assert (Hne : ttl <> "")
    by (apply negb_true_iff in Et; now apply is_empty_false).
  cbn [andb]. intros H. injection H as <-. cbn [Task.title Task.status].
  repeat split; assumption.
Qed.

Lemma validate_inl (d : Schema.doc) (e : error) :
  Schema.validate d = inl e -> e = ValidationError (Schema.invalid_paths d).
Proof.
  unfold Schema.validate.
  destruct (Schema.title d), (Schema.status d);
    try destruct (_ && _); intros H; congruence.
Qed.

(** A blank title puts the title path among the invalid ones. *)
Lemma blank_title_invalid (d : Schema.doc) :
  Schema.title d = Some "" ->
  exists paths, Schema.validate d = inl (ValidationError paths) /\ In "title" paths.
Proof.
  intros Ht. exists (Schema.invalid_paths d). split.
  - unfold Schema.validate, Schema.title_ok. rewrite Ht. simpl.
    now destruct (Schema.status d).
  - unfold Schema.invalid_paths, Schema.title_ok. rewrite Ht. simpl. now left.
Qed.

Lemma set_title_trimmed (v : Js.value) (d : Schema.doc) :
  doc_trimmed (Schema.set_title v d).
Proof.
  intros s. simpl. destruct (Schema.castString v) as [raw|]; simpl; [|discriminate].
  intros H. injection H as <-. apply trim_idempotent.
Qed.

Lemma of_task_trimmed (t : Task.t) : task_ok t -> doc_trimmed (Schema.of_task t).
Proof. intros (Ht & _) s. simpl. intros H. injection H as <-. exact Ht. Qed.

Lemma validate_task_ok (d : Schema.doc) (t : Task.t) :
  doc_trimmed d -> Schema.validate d = inr t -> task_ok t.
Proof.
  intros Hd Hv. apply validate_inr in Hv.
  destruct Hv as (Ht & Hne & _ & Hs & _). repeat split; auto.
Qed.

Lemma save_and_reply_cases (now : Z) (d : Schema.doc) (db : database) :
  (exists e, Routes.save_and_reply now d db = (Routes.Next e, db))
  \/ (exists t,
        Schema.validate d = inr t
        /\ let saved := Task.mk (Task._id t) (Task.title t) (Task.description t)
                                (Task.status t) (Task.user t) (Task.createdAt t) now in
           Routes.save_and_reply now d db =
             (Routes.Json 200 (Routes.MessageTask "Task updated successfully" saved),
              mkDb (Model.replace saved (tasks db)) (next_id db))).
Proof.
  unfold Routes.save_and_reply, Model.save.
  destruct (Schema.validate d) as [e|t]; [left; eauto|right; eauto].
Qed.

Lemma save_and_reply_200 (now : Z) (d : Schema.doc) (db db' : database)
    (msg : string) (saved : Task.t) :
  Routes.save_and_reply now d db
    = (Routes.Json 200 (Routes.MessageTask msg saved), db') ->
  Schema.title d = Some (Task.title saved)
  /\ Schema.status d = Some (Task.status saved)
  /\ Task._id saved = Schema._id d
  /\ Task.description saved = Schema.description d
  /\ Task.user saved = Schema.user d
  /\ Task.createdAt saved = Schema.createdAt d
  /\ Task.updatedAt saved = now
  /\ db' = mkDb (Model.replace saved (tasks db)) (next_id db).
Proof.
  destruct (save_and_reply_cases now d db) as [(e & ->) | (t & Hv & ->)];
    [discriminate|].
  intros H. injection H as _ <- <-.
  apply validate_inr in Hv. destruct Hv as (Ht & _ & Hs & _ & Heq).
  rewrite Heq. simpl. repeat split; assumption.
Qed.

(** ** The update handler, case by case *)

(** The document the update handler holds when it reaches [save]. *)
Lemma put_task_cases (now : Z) (db : database) (u : Identity.t)
    (id : ObjectId) (b : Routes.body) :
  Routes.put_task now db u id b = (Routes.not_found, db)
  \/ Routes.put_task now db u id b = (Routes.invalid_status, db)
  \/ exists found d,
       Model.findOne (Model.by_id_and_user id (Identity._id u)) (tasks db)
         = Some found
       /\ Routes.put_task now db u id b = Routes.save_and_reply now d db
       /\ Schema._id d = Task._id found
       /\ Schema.user d = Task.user found
       /\ Schema.createdAt d = Task.createdAt found
       /\ Schema.title d =
            (if Js.defined (Routes.title b)
             then option_map Str.trim (Schema.castString (Routes.title b))
             else Some (Task.title found))
       /\ Schema.description d =
            (if Js.defined (Routes.description b)
             then Schema.castString (Routes.description b)
             else Task.description found)
       /\ Schema.status d =
            (if Js.defined (Routes.status b)
             then Schema.castString (Routes.status b)
             else Some (Task.status found))
       /\ (Js.defined (Routes.status b) = true ->
           Js.includes Routes.status_literals (Routes.status b) = true).
Proof.
  unfold Routes.put_task.
  destruct (Model.findOne _ (tasks db)) as [found|] eqn:Hfind; [|now left].
  destruct (Js.defined (Routes.status b)) eqn:Hs.
  - destruct (Js.includes Routes.status_literals (Routes.status b)) eqn:Hi;
      [|right; now left].
    right; right. eexists found, _. split; [reflexivity|]. split; [reflexivity|].
    destruct (Js.defined (Routes.title b)), (Js.defined (Routes.description b));
      simpl; repeat split; reflexivity.
  - right; right. eexists found, _. split; [reflexivity|]. split; [reflexivity|].
    destruct (Js.defined (Routes.title b)), (Js.defined (Routes.description b));
      simpl; repeat split; try reflexivity; discriminate.
Qed.

(** ** Sorting newest first *)

Lemma insert_newest_first_perm (t : Task.t) (l : list Task.t) :
  Permutation (Model.insert_newest_first t l) (t :: l).
Proof.
  induction l as [|x rest IH]; simpl; [reflexivity|].
  destruct (Task.createdAt x <=? Task.createdAt t)%Z; [reflexivity|].
  rewrite IH. apply perm_swap.
Qed.

Lemma sort_newest_first_perm (l : list Task.t) :
  Permutation (Model.sort_newest_first l) l.
Proof.
  induction l as [|x rest IH]; simpl; [reflexivity|].
  rewrite insert_newest_first_perm. now apply perm_skip.
Qed.

Lemma insert_newest_first_sorted (t : Task.t) (l : list Task.t) :
  Sorted Spec.newer_or_equal l ->
  Sorted Spec.newer_or_equal (Model.insert_newest_first t l).
Proof.
  induction l as [|x rest IH]; simpl; intros Hs.
  - repeat constructor.
  - destruct (Task.createdAt x <=? Task.createdAt t)%Z eqn:E.
    + constructor; [assumption|]. constructor.
      unfold Spec.newer_or_equal. now apply Z.leb_le.
    + apply Z.leb_gt in E. inversion Hs as [|? ? Hrest Hhd]; subst.
      constructor; [now apply IH|].
      destruct rest as [|y rest']; simpl.
      * constructor. unfold Spec.newer_or_equal. lia.
      * inversion Hhd; subst.
        destruct (Task.createdAt y <=? Task.createdAt t)%Z;
          constructor; unfold Spec.newer_or_equal in *; lia.
Qed.

Lemma sort_newest_first_sorted (l : list Task.t) :
  StronglySorted Spec.newer_or_equal (Model.sort_newest_first l).
Proof.
  apply Sorted_StronglySorted.
  - intros x y z. unfold Spec.newer_or_equal. lia.
  - induction l as [|x rest IH]; simpl; [constructor|].
    now apply insert_newest_first_sorted.
Qed.

Lemma sort_newest_first_In (l : list Task.t) (t : Task.t) :
  In t (Model.sort_newest_first l) <-> In t l.
Proof.
  split; apply Permutation_in;
    [apply sort_newest_first_perm | symmetry; apply sort_newest_first_perm].
Qed.

(** ** Every request leaves the database well formed *)

Lemma satisfies_user (q : Model.query) (m : option (string -> bool)) (t : Task.t) :
  Model.satisfies q m t = true -> Task.user t = Model.q_user q.
Proof.
  unfold Model.satisfies. rewrite !andb_true_iff.
  intros (((_ & H) & _) & _). now apply Nat.eqb_eq.
Qed.

Lemma find_sorted_user (regex_i : string -> option (string -> bool))
    (q : Model.query) (coll found : list Task.t) (t : Task.t) :
  Model.find_sorted regex_i q coll = inr found ->
  In t found -> In t coll /\ Task.user t = Model.q_user q.
Proof.
  unfold Model.find_sorted.
  destruct (Model.q_title q) as [pattern|];
    [destruct (regex_i pattern) as [m|]; [|discriminate]|];
    intros H; injection H as <-; rewrite sort_newest_first_In, filter_In;
    intros (Hin & Hsat); (split; [assumption|]); now apply satisfies_user in Hsat.
Qed.

Lemma get_tasks_query_user (search status : option string) (owner : ObjectId) :
  Model.q_user
    (let query := Model.by_user owner in
     let query :=
       match search with
       | Some pattern =>
           if Js.truthy_param search then Model.with_title pattern query else query
       | None => query
       end in
     match status with
     | Some st =>
         if Js.truthy_param status && Js.includes Routes.status_literals (Js.Str st)
         then Model.with_status st query else query
     | None => query
     end) = owner.
Proof.
  destruct search as [pattern|], status as [st|]; simpl;
    repeat match goal with |- context [if ?c then _ else _] => destruct c end;
    reflexivity.
Qed.

Lemma post_task_cases (now : Z) (db : database) (u : Identity.t) (b : Routes.body) :
  (exists o, Routes.post_task now db u b = (o, db) /\ Routes.disclosed o = [])
  \/ exists t,
       Schema.validate
         (Schema.new_doc (next_id db) now (Routes.title b)
            (Js.or (Routes.description b) (Js.Str ""))
            (Js.or (Routes.status b) (Js.Str "pending")) (Identity._id u))
         = inr t
       /\ Routes.post_task now db u b =
            (Routes.Json 201 (Routes.MessageTask "Task created successfully" t),
             mkDb (tasks db ++ [t]) (S (next_id db))).
Proof.
  unfold Routes.post_task, Model.create.
  destruct (negb (Js.truthy (Routes.title b))); [left; eexists; split; reflexivity|].
  destruct (Schema.validate _) as [e|t] eqn:Hv.
  - left. eexists. split; reflexivity.
  - right. exists t. split; reflexivity.
Qed.

Lemma new_doc_trimmed (id : ObjectId) (now : Z) (ttl descr st : Js.value)
    (owner : ObjectId) :
  doc_trimmed (Schema.new_doc id now ttl descr st owner).
Proof.
  intros s. simpl. destruct (Schema.castString ttl) as [raw|]; simpl; [|discriminate].
  intros H. injection H as <-. apply trim_idempotent.
Qed.

Lemma delete_task_cases (db : database) (u : Identity.t) (id : ObjectId) :
  (Model.findOne (Model.by_id_and_user id (Identity._id u)) (tasks db) = None
   /\ Routes.delete_task db u id = (Routes.not_found, db))
  \/ (exists t,
        Model.findOne (Model.by_id_and_user id (Identity._id u)) (tasks db) = Some t
        /\ Routes.delete_task db u id =
             (Routes.Json 200 (Routes.Message "Task deleted successfully"),
              mkDb (Model.remove_first
                      (Model.satisfies (Model.by_id_and_user id (Identity._id u)) None)
                      (tasks db))
                   (next_id db))).
Proof.
  unfold Routes.delete_task, Model.findOneAndDelete.
  destruct (Model.findOne _ (tasks db)) as [t|]; [right; eauto|left; auto].
Qed.

Section RouterFacts.

Variable regex_i : string -> option (string -> bool).

Let handle := Routes.handle regex_i.
Let reachable := Routes.reachable regex_i.

Lemma post_task_well_formed (now : Z) (db : database) (u : Identity.t)
    (b : Routes.body) :
  well_formed db -> well_formed (snd (Routes.post_task now db u b)).
Proof.
  intros Hwf.
  destruct (post_task_cases now db u b) as [(o & -> & _) | (t & Hv & ->)];
    [exact Hwf|].
  destruct Hwf as (Hu & Hb & Hok).
  pose proof (validate_task_ok _ _ (new_doc_trimmed _ _ _ _ _ _) Hv) as Ht.
  apply validate_inr in Hv. destruct Hv as (_ & _ & _ & _ & Heq).
  assert (Hid : Task._id t = next_id db) by (rewrite Heq; reflexivity).
  unfold well_formed, unique_ids, ids_below_next in *. simpl.
  split; [|split].
  - rewrite map_app. simpl. apply NoDup_app.
    + assumption.
    + repeat constructor. intros [].
    + intros i Hin [<- | []]. apply in_map_iff in Hin.
      destruct Hin as (x & Hx & Hin). rewrite Forall_forall in Hb.
      specialize (Hb x Hin). simpl in Hb. lia.
  - apply Forall_app. split.
    + eapply Forall_impl; [|exact Hb]. simpl. intros; lia.
    + constructor; [lia|constructor].
  - apply Forall_app. split; [assumption|]. now constructor.
Qed.

Lemma put_task_well_formed (now : Z) (db : database) (u : Identity.t)
    (id : ObjectId) (b : Routes.body) :
  well_formed db -> well_formed (snd (Routes.put_task now db u id b)).
Proof.
  intros Hwf.
  destruct (put_task_cases now db u id b)
    as [-> | [-> | (found & d & Hfind & -> & Hid & _ & _ & Ht & _)]];
    try exact Hwf.
  destruct (save_and_reply_cases now d db) as [(e & ->) | (t & Hv & ->)];
    [exact Hwf|].
  destruct Hwf as (Hu & Hb & Hok). apply findOne_some in Hfind.
  destruct Hfind as (Hin & _).
  assert (Hfound : task_ok found) by (rewrite Forall_forall in Hok; auto).
  assert (Htrim : doc_trimmed d).
  { intros s. rewrite Ht. destruct (Js.defined (Routes.title b)).
    - apply (set_title_trimmed (Routes.title b) (Schema.of_task found)).
    - now apply of_task_trimmed. }
  pose proof (validate_task_ok _ _ Htrim Hv) as Htok.
  apply validate_inr in Hv. destruct Hv as (_ & _ & _ & _ & Heq).
  assert (Hidt : Task._id t = Task._id found) by (rewrite Heq; simpl; congruence).
  unfold well_formed, unique_ids, ids_below_next in *. simpl.
  split; [|split].
  - now rewrite replace_ids.
  - rewrite Forall_forall in *. intros x Hx. apply replace_in in Hx.
    destruct Hx as [-> | (Hx & _)]; [simpl; rewrite Hidt|]; auto.
  - rewrite Forall_forall in *. intros x Hx. apply replace_in in Hx.
    destruct Hx as [-> | (Hx & _)]; [exact Htok|auto].
Qed.

Lemma delete_task_well_formed (db : database) (u : Identity.t) (id : ObjectId) :
  well_formed db -> well_formed (snd (Routes.delete_task db u id)).
Proof.
  intros Hwf.
  destruct (delete_task_cases db u id) as [(_ & ->) | (t & _ & ->)]; [exact Hwf|].
  destruct Hwf as (Hu & Hb & Hok).
  unfold well_formed, unique_ids, ids_below_next in *. simpl.
  split; [now apply remove_first_ids|].
  split; rewrite Forall_forall in *; intros x Hx;
    apply remove_first_subset in Hx; auto.
Qed.

Lemma handle_well_formed (now : Z) (db : database) (u : Identity.t)
    (r : Routes.request) :
  well_formed db -> well_formed (snd (handle now db u r)).
Proof.
  destruct r; simpl; intros Hwf;
    [ exact Hwf | exact Hwf | now apply post_task_well_formed
    | now apply put_task_well_formed | now apply delete_task_well_formed ].
Qed.

Lemma reachable_well_formed (db : database) : reachable db -> well_formed db.
Proof.
  induction 1 as [|db now u r _ IH].
  - repeat split; constructor.
  - now apply handle_well_formed.
Qed.

(** ** Isolation of one owner from another *)

(** Whatever an identity asks, the tasks of other owners stay stored as
    they are. *)
Lemma handle_keeps_others (now : Z) (db : database) (u : Identity.t)
    (r : Routes.request) (t : Task.t) :
  unique_ids db -> In t (tasks db) -> Task.user t <> Identity._id u ->
  In t (tasks (snd (handle now db u r))).
Proof.
  intros Hu Hin Hneq. destruct r as [s st | id | b | id b | id]; simpl; auto.
  - destruct (post_task_cases now db u b) as [(o & -> & _) | (x & _ & ->)];
      simpl; [assumption|]. apply in_or_app. now left.
  - destruct (put_task_cases now db u id b)
      as [-> | [-> | (found & d & Hfind & -> & Hid & _)]]; try assumption.
    destruct (save_and_reply_cases now d db) as [(e & ->) | (x & Hv & ->)];
      [assumption|]. simpl.
    apply validate_inr in Hv. destruct Hv as (_ & _ & _ & _ & Heq).
    apply findOne_some in Hfind. destruct Hfind as (Hf & _ & Hfu).
    apply replace_keeps; [assumption|]. simpl.
    rewrite Heq. simpl. rewrite Hid. intros Hsame.
    assert (t = found) by now apply (unique_ids_same (tasks db)).
    subst. congruence.
  - destruct (delete_task_cases db u id) as [(_ & ->) | (x & _ & ->)];
      [assumption|]. simpl. apply remove_first_keeps; [assumption|].
    destruct (Model.satisfies _ None t) eqn:E; [|reflexivity].
    apply satisfies_user in E. simpl in E. congruence.
Qed.

(** Whatever an identity asks, the answer discloses only its own tasks. *)
Lemma handle_discloses_own (now : Z) (db : database) (u : Identity.t)
    (r : Routes.request) (t : Task.t) :
  In t (Routes.disclosed (fst (handle now db u r))) ->
  Task.user t = Identity._id u.
Proof.
  destruct r as [s st | id | b | id b | id]; simpl.
  - unfold Routes.get_tasks.
    destruct (Model.find_sorted regex_i _ (tasks db)) as [e|found] eqn:E;
      simpl; [contradiction|].
    intros Hin. destruct (find_sorted_user _ _ _ _ _ E Hin) as (_ & ->).
    apply get_tasks_query_user.
  - unfold Routes.get_task.
    destruct (Model.findOne _ (tasks db)) as [x|] eqn:E; simpl; [|contradiction].
    intros [<- | []]. now apply findOne_some in E.
  - destruct (post_task_cases now db u b) as [(o & -> & Ho) | (x & Hv & ->)];
      simpl; [rewrite Ho; contradiction|].
    intros [<- | []]. apply validate_inr in Hv.
    destruct Hv as (_ & _ & _ & _ & ->). reflexivity.
  - destruct (put_task_cases now db u id b)
      as [-> | [-> | (found & d & Hfind & -> & _ & Hdu & _)]];
      simpl; try contradiction.
    destruct (save_and_reply_cases now d db) as [(e & ->) | (x & Hv & ->)];
      simpl; [contradiction|].
    intros [<- | []]. simpl. apply validate_inr in Hv.
    destruct Hv as (_ & _ & _ & _ & ->). simpl. rewrite Hdu.
    now apply findOne_some in Hfind.
  - destruct (delete_task_cases db u id) as [(_ & ->) | (x & _ & ->)];
      simpl; contradiction.
Qed.

(** C1.  In a collection with unique identifiers, a task of owner [a] is
    returned to [a] by the single-task lookup and is not found for any
    other identity [b], whose update and delete of it also answer not
    found and change nothing; and whatever [b] requests, the task stays
    stored as it is and is not part of the answer. *)
Theorem ownership_isolation (db : database) (a b : Identity.t) (x : Task.t) :
  unique_ids db ->
  In x (tasks db) ->
  Task.user x = Identity._id a ->
  Identity._id b <> Identity._id a ->
  Routes.get_task db b (Task._id x) = Routes.not_found
  /\ Routes.get_task db a (Task._id x) = Routes.Json 200 (Routes.TaskOnly x)
  /\ (forall now body,
        Routes.put_task now db b (Task._id x) body = (Routes.not_found, db))
  /\ Routes.delete_task db b (Task._id x) = (Routes.not_found, db)
  /\ (forall now r,
        In x (tasks (snd (handle now db b r)))
        /\ ~ In x (Routes.disclosed (fst (handle now db b r)))).
Proof.
  intros Hu Hin Hown Hneq.
  assert (Hstranger :
    Model.findOne (Model.by_id_and_user (Task._id x) (Identity._id b)) (tasks db)
      = None) by (apply findOne_stranger; [exact Hu | exact Hin | congruence]).
  split; [|split; [|split; [|split]]].
  - unfold Routes.get_task. now rewrite Hstranger.
  - unfold Routes.get_task. rewrite <- Hown.
    now rewrite (findOne_owner (tasks db) x Hu Hin).
  - intros now body. unfold Routes.put_task. now rewrite Hstranger.
  - unfold Routes.delete_task, Model.findOneAndDelete. now rewrite Hstranger.
  - intros now r. split.
    + apply handle_keeps_others; [exact Hu | exact Hin | congruence].
    + intros Hd. apply handle_discloses_own in Hd. congruence.
Qed.

End RouterFacts.

Ltac distinct_ids :=
  unfold unique_ids; simpl;
  repeat (constructor; [simpl; intuition discriminate|]); constructor.

(** Witness of C1 on the sample database: the first task belongs to Alice
    and Bob is the stranger. *)
Lemma ownership_isolation_witness :
  Routes.get_task Sample.db Sample.B 0 = Routes.not_found
  /\ Routes.get_task Sample.db Sample.A 0
     = Routes.Json 200 (Routes.TaskOnly Sample.task1)
  /\ Routes.delete_task Sample.db Sample.B 0 = (Routes.not_found, Sample.db).
Proof.
  assert (Hu : unique_ids Sample.db) by distinct_ids.
  assert (Hin : In Sample.task1 (tasks Sample.db)) by (simpl; auto).
  assert (Hown : Task.user Sample.task1 = Identity._id Sample.A) by reflexivity.
  assert (Hneq : Identity._id Sample.B <> Identity._id Sample.A) by discriminate.
  destruct (ownership_isolation Sample.regex_i Sample.db Sample.A Sample.B
              Sample.task1 Hu Hin Hown Hneq) as (H1 & H2 & _ & H4 & _).
  exact (conj H1 (conj H2 H4)).
Defined.

(** ** Rejected updates *)

(** C3.  An update of one's own task that supplies a status outside the
    three literals is answered with the invalid-status error and the
    database is the one before the call, whatever title and description
    came with it; on any identifier at all such an update leaves the
    database as it was. *)
Theorem update_invalid_status_changes_nothing
    (now : Z) (db : database) (u : Identity.t) (b : Routes.body) (x : Task.t) :
  In x (tasks db) ->
  Task.user x = Identity._id u ->
  Js.defined (Routes.status b) = true ->
  Js.includes Routes.status_literals (Routes.status b) = false ->
  Routes.put_task now db u (Task._id x) b = (Routes.invalid_status, db)
  /\ forall id, snd (Routes.put_task now db u id b) = db.
Proof.
  intros Hin Hown Hdef Hinc. split.
  - destruct (findOne_finds (tasks db) x Hin) as (t & Hfind).
    unfold Routes.put_task. rewrite <- Hown, Hfind, Hdef, Hinc. reflexivity.
  - intros id. unfold Routes.put_task.
    destruct (Model.findOne _ (tasks db)); [|reflexivity].
    rewrite Hdef, Hinc. reflexivity.
Qed.

(** Witness of C3: Alice sends a new title together with the status
    [archived] for her first task. *)
Lemma update_invalid_status_changes_nothing_witness :
  Routes.put_task 50 Sample.db Sample.A 0
    (Routes.mkBody (Js.Str "renamed") (Js.Str "text") (Js.Str "archived"))
  = (Routes.invalid_status, Sample.db).
Proof.
  apply (update_invalid_status_changes_nothing 50 Sample.db Sample.A
           (Routes.mkBody (Js.Str "renamed") (Js.Str "text") (Js.Str "archived"))
           Sample.task1);
    [simpl; auto | reflexivity | reflexivity | reflexivity].
Defined.

(** ** The frame of a successful update *)

(** C8.  When an update answers 200 with the saved task, that task takes
    the place of the stored task with the requested identifier, which the
    caller owns; identifier, owner and creation stamp are the old ones;
    title, description and status are the old ones when the body does not
    carry them and the supplied ones (the title trimmed) when it does; the
    updated stamp is the time of the save; every other task is stored as
    before. *)
Theorem update_changes_only_supplied_fields
    (now : Z) (db db' : database) (u : Identity.t) (id : ObjectId)
    (b : Routes.body) (msg : string) (saved : Task.t) :
  Routes.put_task now db u id b
    = (Routes.Json 200 (Routes.MessageTask msg saved), db') ->
  exists old,
    In old (tasks db)
    /\ Task._id old = id
    /\ Task.user old = Identity._id u
    /\ Task._id saved = Task._id old
    /\ Task.user saved = Task.user old
    /\ Task.createdAt saved = Task.createdAt old
    /\ Task.updatedAt saved = now
    /\ (if Js.defined (Routes.title b)
        then option_map Str.trim (Schema.castString (Routes.title b))
             = Some (Task.title saved)
        else Task.title saved = Task.title old)
    /\ (if Js.defined (Routes.description b)
        then Task.description saved = Schema.castString (Routes.description b)
        else Task.description saved = Task.description old)
    /\ (if Js.defined (Routes.status b)
        then Routes.status b = Js.Str (Task.status saved)
        else Task.status saved = Task.status old)
    /\ db' = mkDb (Model.replace saved (tasks db)) (next_id db)
    /\ In saved (tasks db')
    /\ (forall t, In t (tasks db) -> Task._id t <> id -> In t (tasks db'))
    /\ (forall t, In t (tasks db') ->
          t = saved \/ (In t (tasks db) /\ Task._id t <> id)).
Proof.
  intros H.
  destruct (put_task_cases now db u id b)
    as [E | [E | (found & d & Hfind & E & Hid & Hdu & Hdc & Ht & Hd & Hs & Hinc)]];
    rewrite E in H; try discriminate.
  apply save_and_reply_200 in H.
  destruct H as (Hst & Hss & Hsid & Hsd & Hsu & Hsc & Hsn & ->).
  apply findOne_some in Hfind. destruct Hfind as (Hin & Hfid & Hfu).
  assert (Hsame : Task._id saved = Task._id found) by congruence.
  exists found. repeat split; try congruence.
  - destruct (Js.defined (Routes.title b)); congruence.
  - destruct (Js.defined (Routes.description b)); congruence.
  - destruct (Js.defined (Routes.status b)).
    + destruct (includes_Str _ _ (Hinc eq_refl)) as (s & Hb & _).
      rewrite Hb in *. simpl in Hs. congruence.
    + congruence.
  - simpl. apply replace_puts. rewrite Hsame. now apply in_map.
  - simpl. intros t Ht' Hneq. apply replace_keeps; congruence.
  - simpl. intros t Ht'. apply replace_in in Ht'.
    destruct Ht' as [-> | (Ht' & Hneq)]; [now left|right].
    split; congruence.
Qed.

(** Witness of C8: Alice renames her first task and leaves description and
    status out of the body. *)
Lemma update_changes_only_supplied_fields_witness :
  exists old,
    In old (tasks Sample.db)
    /\ Task.title old = "abc"
    /\ Task.status old = "pending"
    /\ Routes.put_task 50 Sample.db Sample.A 0
         (Routes.mkBody (Js.Str " renamed ") Js.Undefined Js.Undefined)
       = (Routes.Json 200
            (Routes.MessageTask "Task updated successfully"
               (Task.mk 0 "renamed" (Some "") "pending" 1 10 50)),
          mkDb [Task.mk 0 "renamed" (Some "") "pending" 1 10 50;
                Sample.task2; Sample.task3] 3).
Proof.
  destruct (update_changes_only_supplied_fields 50 Sample.db
              (mkDb [Task.mk 0 "renamed" (Some "") "pending" 1 10 50;
                     Sample.task2; Sample.task3] 3)
              Sample.A 0
              (Routes.mkBody (Js.Str " renamed ") Js.Undefined Js.Undefined)
              "Task updated successfully"
              (Task.mk 0 "renamed" (Some "") "pending" 1 10 50) eq_refl)
    as (old & Hin & Hid & _).
  exists old. split; [exact Hin|].
  simpl in Hin. destruct Hin as [<- | [<- | [<- | []]]]; try discriminate.
  repeat split.
Defined.

(** ** Deleting twice *)

(** C9.  In a collection with unique identifiers, a delete that follows a
    delete of the same identifier by the same identity answers not found
    and leaves the database as the first delete left it; a delete that
    answers not found changes nothing; and for an identifier that no
    stored task has, every delete answers not found. *)
Theorem delete_twice (db : database) (u : Identity.t) (id : ObjectId) :
  unique_ids db ->
  let after := snd (Routes.delete_task db u id) in
  Routes.delete_task after u id = (Routes.not_found, after)
  /\ (fst (Routes.delete_task db u id) = Routes.not_found -> after = db)
  /\ ((forall t, In t (tasks db) -> Task._id t <> id) ->
      Routes.delete_task db u id = (Routes.not_found, db)).
Proof.
  intros Hu after.
  assert (Hmiss : forall d,
    (forall t, In t (tasks d) -> Task._id t <> id) ->
    Routes.delete_task d u id = (Routes.not_found, d)).
  { intros d Hnone. destruct (delete_task_cases d u id) as [(_ & E) | (t & E & _)];
      [exact E|]. apply findOne_some in E. destruct E as (Hin & Hid & _).
    now destruct (Hnone t Hin). }
  split; [|split].
  - subst after.
    destruct (delete_task_cases db u id) as [(_ & E) | (x & Hfind & E)];
      rewrite E; simpl.
    + exact E.
    + apply Hmiss. simpl. intros t Hin.
      now apply (remove_first_by_id id (Identity._id u) (tasks db) x).
  - subst after.
    destruct (delete_task_cases db u id) as [(_ & ->) | (x & _ & ->)];
      [reflexivity|discriminate].
  - apply Hmiss.
Qed.

(** Witness of C9: Alice deletes her second task twice, and deletes an
    identifier that was never used. *)
Lemma delete_twice_witness :
  Routes.delete_task Sample.db Sample.A 1
    = (Routes.Json 200 (Routes.Message "Task deleted successfully"),
       mkDb [Sample.task1; Sample.task3] 3)
  /\ Routes.delete_task (mkDb [Sample.task1; Sample.task3] 3) Sample.A 1
     = (Routes.not_found, mkDb [Sample.task1; Sample.task3] 3)
  /\ Routes.delete_task Sample.db Sample.A 9 = (Routes.not_found, Sample.db).
Proof.
  assert (Hu : unique_ids Sample.db) by distinct_ids.
  destruct (delete_twice Sample.db Sample.A 1 Hu) as (H2 & _).
  destruct (delete_twice Sample.db Sample.A 9 Hu) as (_ & _ & H9).
  split; [reflexivity|]. split; [exact H2|].
  apply H9. simpl. intros t [<- | [<- | [<- | []]]]; discriminate.
Defined.

(** ** Listing *)

(** The filter document the list handler builds. *)
Lemma get_tasks_query (regex_i : string -> option (string -> bool))
    (db : database) (u : Identity.t) (search status : option string) :
  Routes.get_tasks regex_i db u search status =
    match Model.find_sorted regex_i
            (Model.mkQuery None (Identity._id u)
               match search with
               | Some term => if Str.is_empty term then None else Some term
               | None => None
               end
               match status with
               | Some st =>
                   if existsb (String.eqb st) Schema.statuses then Some st else None
               | None => None
               end)
            (tasks db) with
    | inl e => Routes.Next e
    | inr found => Routes.Json 200 (Routes.CountTasks (List.length found) found)
    end.
Proof.
  unfold Routes.get_tasks.
  assert (Hstatus : forall st,
    Js.truthy_param (Some st) && Js.includes Routes.status_literals (Js.Str st)
    = existsb (String.eqb st) Schema.statuses)
    by (intros [|d st]; reflexivity).
  destruct search as [[|c term]|]; destruct status as [st|];
    rewrite ?Hstatus; cbn [Js.truthy_param Str.is_empty negb];
    try destruct (existsb (String.eqb st) Schema.statuses); reflexivity.
Qed.

Lemma satisfies_list_filter (test : string -> string -> bool)
    (u : Identity.t) (search status : option string) (t : Task.t) :
  Model.satisfies
    (Model.mkQuery None (Identity._id u)
       match search with
       | Some term => if Str.is_empty term then None else Some term
       | None => None
       end
       match status with
       | Some st =>
           if existsb (String.eqb st) Schema.statuses then Some st else None
       | None => None
       end)
    match search with
    | Some term => if Str.is_empty term then None else Some (test term)
    | None => None
    end t
  = Spec.list_filter test u search status t.
Proof.
  unfold Model.satisfies, Spec.list_filter.
  destruct search as [term|]; [destruct (Str.is_empty term)|];
    (destruct status as [st|];
       [destruct (existsb (String.eqb st) Schema.statuses)|]);
    reflexivity.
Qed.

(** C6, as the handler has it.  The list answer holds exactly the stored
    tasks of the caller whose title passes the store's case-insensitive
    pattern test for the search term, when a non-empty one is given, and
    whose status is the status filter, when that is one of the three
    literals; they come newest first, and none of them when nothing
    passes.  A search term the store rejects as a pattern is answered with
    the store's error instead. *)
Theorem list_returns_owned_matching_newest_first
    (regex_i : string -> option (string -> bool))
    (db : database) (u : Identity.t) (search status : option string) :
  (forall term,
     search = Some term -> term <> "" -> regex_i term = None ->
     Routes.get_tasks regex_i db u search status = Routes.Next (RegexError term))
  /\ (forall test : string -> string -> bool,
        (forall term,
           search = Some term -> term <> "" -> regex_i term = Some (test term)) ->
        exists found,
          Routes.get_tasks regex_i db u search status
            = Routes.Json 200 (Routes.CountTasks (List.length found) found)
          /\ Permutation found
               (filter (Spec.list_filter test u search status) (tasks db))
          /\ StronglySorted Spec.newer_or_equal found
          /\ (filter (Spec.list_filter test u search status) (tasks db) = [] ->
              found = [])).
Proof.
  split.
  - intros term -> Hne Hbad. rewrite get_tasks_query.
    apply is_empty_false in Hne. rewrite Hne.
    unfold Model.find_sorted. simpl. now rewrite Hbad.
  - intros test Hcompiles.
    exists (Model.sort_newest_first
              (filter (Spec.list_filter test u search status) (tasks db))).
    split; [|split; [|split]].
    + rewrite get_tasks_query. unfold Model.find_sorted.
      rewrite <- (filter_ext _ _ (satisfies_list_filter test u search status)).
      destruct search as [term|]; simpl; [|reflexivity].
      destruct (Str.is_empty term) eqn:E; simpl; [reflexivity|].
      apply is_empty_false in E.
      rewrite (Hcompiles term eq_refl E). reflexivity.
    + apply sort_newest_first_perm.
    + apply sort_newest_first_sorted.
    + intros ->. reflexivity.
Qed.

(** Witness of the amended C6: Alice lists with the search term [rep] and
    the status filter [in-progress]. *)
Lemma list_returns_owned_matching_newest_first_witness :
  exists found,
    Routes.get_tasks Sample.regex_i Sample.db Sample.A
      (Some "rep") (Some "in-progress")
      = Routes.Json 200 (Routes.CountTasks (List.length found) found)
    /\ Permutation found [Sample.task2].
Proof.
  destruct (list_returns_owned_matching_newest_first Sample.regex_i Sample.db
              Sample.A (Some "rep") (Some "in-progress")) as (_ & H).
  destruct (H Sample.test) as (found & Hget & Hperm & _).
  - intros term Heq _. injection Heq as <-. reflexivity.
  - exists found. split; [exact Hget|exact Hperm].
Defined.

(** C6 as the specification states it fails: with the search term [.]
    the answer holds Alice's task titled [abc], whose title does not
    contain a dot, so the substring filter of the specification leaves it
    out. *)
Lemma list_search_is_a_pattern :
  Routes.get_tasks Sample.regex_i Sample.db Sample.A (Some ".") None
    = Routes.Json 200 (Routes.CountTasks 2 [Sample.task2; Sample.task1])
  /\ Str.contains_ci "." (Task.title Sample.task1) = false
  /\ Spec.list_filter Str.contains_ci Sample.A (Some ".") None Sample.task1
     = false
  /\ ~ Permutation [Sample.task2; Sample.task1]
         (filter (Spec.list_filter Str.contains_ci Sample.A (Some ".") None)
                 (tasks Sample.db)).
Proof.
  split; [reflexivity|]. split; [reflexivity|]. split; [reflexivity|].
  intros H. apply Permutation_length in H. discriminate.
Qed.

(** C10.  An empty search term or an empty status filter in the query
    string gives the answer of the request without that parameter, and the
    client sends neither parameter when its argument is the empty string. *)
Theorem empty_filters_are_absent
    (regex_i : string -> option (string -> bool))
    (db : database) (u : Identity.t) (search status : option string) :
  Routes.get_tasks regex_i db u (Some "") status
    = Routes.get_tasks regex_i db u None status
  /\ Routes.get_tasks regex_i db u search (Some "")
     = Routes.get_tasks regex_i db u search None
  /\ Routes.get_tasks regex_i db u (Some "") (Some "")
     = Routes.get_tasks regex_i db u None None
  /\ Api.getAll_params "" "" = Api.mkParams None None
  /\ Api.getAll regex_i db u "" "" = Routes.get_tasks regex_i db u None None.
Proof.
  repeat split; rewrite ?get_tasks_query; reflexivity.
Qed.

(** ** Titles *)

Section TitleFacts.

Variable regex_i : string -> option (string -> bool).

(** C7.  A create whose title is blank once trimmed is refused, by the
    handler's own check or by the schema's validation of the title path,
    and nothing is stored; an update whose title is blank once trimmed
    stores nothing either; and in every database the router can reach,
    every stored task has a title that is not empty when trimmed. *)
Theorem stored_titles_are_never_blank :
  (forall now db u s descr st,
     Str.trim s = "" ->
     exists o,
       Routes.post_task now db u (Routes.mkBody (Js.Str s) descr st) = (o, db)
       /\ Routes.title_refused o)
  /\ (forall now db u id s descr st,
        Str.trim s = "" ->
        snd (Routes.put_task now db u id (Routes.mkBody (Js.Str s) descr st)) = db)
  /\ (forall db,
        Routes.reachable regex_i db ->
        Forall (fun t => Str.trim (Task.title t) <> "") (tasks db)).
Proof.
  split; [|split].
  - intros now db u s descr st Hblank. unfold Routes.post_task. simpl.
    destruct (Str.is_empty s) eqn:E; simpl.
    + exists Routes.title_required. split; [reflexivity|now left].
    + unfold Model.create.
      destruct (blank_title_invalid
                  (Schema.new_doc (next_id db) now (Js.Str s)
                     (Js.or descr (Js.Str "")) (Js.or st (Js.Str "pending"))
                     (Identity._id u)))
        as (paths & Hv & Hin); [simpl; now rewrite Hblank|].
      rewrite Hv. exists (Routes.Next (ValidationError paths)).
      split; [reflexivity|]. right. eauto.
  - intros now db u id s descr st Hblank.
    destruct (put_task_cases now db u id (Routes.mkBody (Js.Str s) descr st))
      as [-> | [-> | (found & d & _ & -> & _ & _ & _ & Ht & _)]];
      try reflexivity.
    simpl in Ht. rewrite Hblank in Ht.
    destruct (blank_title_invalid d Ht) as (paths & Hv & _).
    unfold Routes.save_and_reply, Model.save. now rewrite Hv.
  - intros db Hreach. apply reachable_well_formed in Hreach.
    destruct Hreach as (_ & _ & Hok).
    eapply Forall_impl; [|exact Hok].
    intros t (Htrim & Hne & _). now rewrite Htrim.
Qed.

End TitleFacts.

(** Witness of C7: Bob posts a title of three spaces to the sample
    database, and the database reached after Alice created one task. *)
Lemma stored_titles_are_never_blank_witness :
  (exists o,
     Routes.post_task 50 Sample.db Sample.B
       (Routes.mkBody (Js.Str "   ") Js.Undefined Js.Undefined) = (o, Sample.db)
     /\ Routes.title_refused o)
  /\ Forall (fun t => Str.trim (Task.title t) <> "")
       (tasks (snd (Routes.handle Sample.regex_i 50 (mkDb [] 0) Sample.A
                      (Routes.PostTask
                         (Routes.mkBody (Js.Str " a ") Js.Undefined Js.Undefined))))).
Proof.
  destruct (stored_titles_are_never_blank Sample.regex_i) as (Hpost & _ & Hreach).
  split.
  - apply Hpost. reflexivity.
  - apply Hreach. apply Routes.reachable_step. apply Routes.reachable_empty.
Defined.

(** ** Status on create *)

(** C2, evaluated on the handler.  A create that carries the empty string
    as status stores a task with status [pending] and answers 201; a
    create that carries [archived] is not answered by the handler with the
    invalid-status error: the schema's validation error for the status
    path goes to [next], and nothing is stored.  The update handler
    answers the invalid-status error to both. *)
Theorem create_does_not_check_status
    (now : Z) (db : database) (u : Identity.t) :
  Routes.post_task now db u (Routes.mkBody (Js.Str "T") Js.Undefined (Js.Str ""))
    = (Routes.Json 201
         (Routes.MessageTask "Task created successfully"
            (Task.mk (next_id db) "T" (Some "") "pending" (Identity._id u) now now)),
       mkDb (tasks db
             ++ [Task.mk (next_id db) "T" (Some "") "pending" (Identity._id u) now now])
            (S (next_id db)))
  /\ Routes.post_task now db u
       (Routes.mkBody (Js.Str "T") Js.Undefined (Js.Str "archived"))
     = (Routes.Next (ValidationError ["status"]), db)
  /\ Routes.put_task now Sample.db Sample.A 0
       (Routes.mkBody Js.Undefined Js.Undefined (Js.Str ""))
     = (Routes.invalid_status, Sample.db)
  /\ Routes.put_task now Sample.db Sample.A 0
       (Routes.mkBody Js.Undefined Js.Undefined (Js.Str "archived"))
     = (Routes.invalid_status, Sample.db).
Proof.
  repeat split.
Qed.

(** ** The sample pattern test on plain terms *)

Lemma sample_parse_plain (pattern : string) :
  Sample.plain pattern = true ->
  Sample.parse pattern = Some (map Sample.Lit (list_ascii_of_string pattern)).
Proof.
  unfold Sample.plain.
  induction pattern as [|c rest IH]; simpl; [reflexivity|].
  rewrite !andb_true_iff, !negb_true_iff. intros ((Hm & Hd) & Hrest).
  rewrite Hm, (IH Hrest), Hd. reflexivity.
Qed.

Lemma sample_literals_here (pattern s : string) :
  Sample.matches_here (map Sample.Lit (list_ascii_of_string pattern)) s
  = Str.prefix_ci pattern s.
Proof.
  revert s. induction pattern as [|c rest IH]; intros s; simpl; [reflexivity|].
  destruct s as [|d s']; [reflexivity|]. now rewrite IH.
Qed.

(** On a term without metacharacters the sample test is the
    case-insensitive substring test. *)
Lemma sample_plain_is_substring (pattern title : string) :
  Sample.plain pattern = true ->
  Sample.test pattern title = Str.contains_ci pattern title.
Proof.
  intros Hplain. unfold Sample.test, Sample.regex_i.
  rewrite (sample_parse_plain pattern Hplain). simpl.
  induction title as [|c rest IH]; simpl.
  - now rewrite sample_literals_here.
  - now rewrite sample_literals_here, IH.
Qed.

(* ===================================================================== *)
(** * Further properties of the modelled code *)
(* ===================================================================== *)

(** ** Admission by the bearer-token gate *)

Lemma starts_with_bearer (h : string) :
  Str.startsWith h "Bearer " = true ->
  h = ("Bearer " ++ Str.substring_from 7 h)%string.
Proof.
  unfold Str.startsWith. intros H.
  do 7 (destruct h as [|? h]; [discriminate H|]; cbn [String.prefix] in H;
        match type of H with
        | (if ?d then _ else _) = true => destruct d; [subst|discriminate H]
        end).
  reflexivity.
Qed.

Lemma findById_some (users : list User.t) (id : ObjectId) (user : User.t) :
  User.findById users id = Some user -> In user users /\ User._id user = id.
Proof.
  unfold User.findById. intros H. apply find_some in H.
  destruct H as (Hin & Heq). split; [assumption|now apply Nat.eqb_eq].
Qed.

Section AdmissionFacts.

Variable jwt_verify : string -> string -> Jwt.result.
Variable JWT_SECRET : string.

(** X1.  The gate attaches an identity exactly when the header is
    [Bearer ] followed by a non-empty token that the library decodes to a
    payload whose user is stored; the identity is then that stored user,
    less the password. *)
Theorem protect_admits_exactly
    (users : list User.t) (header : option string) (u : Identity.t) :
  Auth.protect jwt_verify JWT_SECRET users header = Auth.Attach u <->
  exists token p user,
    header = Some ("Bearer " ++ token)%string
    /\ token <> ""
    /\ jwt_verify token JWT_SECRET = Jwt.Decoded p
    /\ User.findById users (Jwt.userId p) = Some user
    /\ In user users
    /\ User._id user = Jwt.userId p
    /\ u = Identity.of_user user.
Proof.
  split.
  - destruct header as [h|]; [|discriminate].
    destruct (Str.startsWith h "Bearer ") eqn:Hpre.
    + rewrite (starts_with_bearer h Hpre).
      destruct (Str.substring_from 7 h) as [|c rest] eqn:Htok; [discriminate|].
      assert (Hne : String c rest <> "") by discriminate.
      change (Some ("Bearer " ++ String c rest)%string)
        with (Auth.bearer (String c rest)).
      rewrite (protect_bearer jwt_verify JWT_SECRET users _ Hne).
      destruct (jwt_verify _ JWT_SECRET) as [p|e] eqn:Hv; [|discriminate].
      destruct (User.findById users (Jwt.userId p)) as [user|] eqn:Hu;
        [|discriminate].
      intros H. injection H as <-.
      exists (String c rest), p, user.
      destruct (findById_some _ _ _ Hu) as (Hin & Hid).
      repeat split; assumption.
    + unfold Auth.protect. rewrite Hpre. simpl. rewrite orb_true_r.
      discriminate.
  - intros (token & p & user & -> & Hne & Hv & Hu & _ & _ & ->).
    change (Some ("Bearer " ++ token)%string) with (Auth.bearer token).
    rewrite (protect_bearer jwt_verify JWT_SECRET users token Hne), Hv, Hu.
    reflexivity.
Qed.

(** X2.  The header the client's interceptor builds from the stored token
    hands exactly that token to [jwt.verify]; with no stored token, or an
    empty one, no header is set and the gate answers that no token was
    provided. *)
Theorem interceptor_token_reaches_verify
    (users : list User.t) (stored : option string) :
  Auth.protect jwt_verify JWT_SECRET users (Interceptor.authorization stored None)
  = match stored with
    | None => Auth.no_token
    | Some token =>
        if Str.is_empty token then Auth.no_token
        else
          match jwt_verify token JWT_SECRET with
          | Jwt.Throws _ => Auth.invalid_token
          | Jwt.Decoded p =>
              match User.findById users (Jwt.userId p) with
              | None => Auth.user_not_found
              | Some user => Auth.Attach (Identity.of_user user)
              end
          end
    end.
Proof.
  destruct stored as [token|]; [|reflexivity].
  unfold Interceptor.authorization.
  destruct (Str.is_empty token) eqn:E; [reflexivity|].
  apply is_empty_false in E.
  exact (protect_bearer jwt_verify JWT_SECRET users token E).
Qed.

End AdmissionFacts.

(** Witness of X1: the sample token of Alice. *)
Lemma protect_admits_exactly_witness :
  Sample.protect Sample.users (Some "Bearer alice") = Auth.Attach Sample.A.
Proof.
  apply (protect_admits_exactly
           (Jwt.verify Sample.decode Sample.signature_ok Sample.clock)
           Sample.JWT_SECRET Sample.users (Some "Bearer alice") Sample.A).
  exists "alice", (Jwt.mkPayload 1 0 2592000), Sample.alice.
  repeat split; try reflexivity; [discriminate | simpl; auto].
Defined.

(** ** The task card *)

(** X3.  Every status other than [completed] and [in-progress] gets the
    colour of [pending], and the three valid statuses get three different
    colours, so the badge colour of a stored task tells its status. *)
Theorem status_colour_tells_status :
  (forall s, s <> "completed" -> s <> "in-progress" ->
             TaskCard.getStatusColor s = TaskCard.getStatusColor "pending")
  /\ (forall s1 s2,
        In s1 Schema.statuses -> In s2 Schema.statuses ->
        TaskCard.getStatusColor s1 = TaskCard.getStatusColor s2 -> s1 = s2).
Proof.
  split.
  - intros s Hc Hi. unfold TaskCard.getStatusColor.
    apply String.eqb_neq in Hc, Hi. rewrite Hc, Hi. reflexivity.
  - intros s1 s2 H1 H2. simpl in H1, H2.
    destruct H1 as [<- | [<- | [<- | []]]];
      destruct H2 as [<- | [<- | [<- | []]]];
      try reflexivity; discriminate.
Qed.

Lemma status_colour_tells_status_witness :
  TaskCard.getStatusColor "archived" = TaskCard.getStatusColor "pending"
  /\ ("completed" = "in-progress"
      \/ TaskCard.getStatusColor "completed"
         <> TaskCard.getStatusColor "in-progress").
Proof.
  destruct status_colour_tells_status as (Hdefault & Hinj).
  split.
  - apply Hdefault; discriminate.
  - right. intros Heq.
    assert (H : "completed" = "in-progress")
      by (apply Hinj; [simpl; auto | simpl; auto | exact Heq]).
    discriminate H.
Defined.

Lemma replace_first_length (a b : ascii) (s : string) :
  String.length (TaskCard.replace_first a b s) = String.length s.
Proof.
  induction s as [|c rest IH]; simpl; [reflexivity|].
  destruct (Ascii.eqb c a); simpl; congruence.
Qed.

(** X4.  The badge text has the length of the status and one hyphen less
    (the first one becomes a space); a status without a hyphen is shown as
    it is, and the text of every valid status has no hyphen. *)
Theorem status_label_replaces_first_hyphen (status : string) :
  String.length (TaskCard.status_label status) = String.length status
  /\ TaskCard.occurrences "-" (TaskCard.status_label status)
     = pred (TaskCard.occurrences "-" status)
  /\ (TaskCard.occurrences "-" status = 0 ->
      TaskCard.status_label status = status)
  /\ (In status Schema.statuses ->
      TaskCard.occurrences "-" (TaskCard.status_label status) = 0).
Proof.
  unfold TaskCard.status_label. split; [apply replace_first_length|].
  split; [|split].
  - induction status as [|c rest IH]; simpl; [reflexivity|].
    destruct (Ascii.eqb c "-") eqn:E; simpl.
    + reflexivity.
    + rewrite E. simpl. exact IH.
  - induction status as [|c rest IH]; simpl; [reflexivity|].
    destruct (Ascii.eqb c "-") eqn:E; simpl; [discriminate|].
    intros H. now rewrite IH.
  - simpl. intros [<- | [<- | [<- | []]]]; reflexivity.
Qed.

Lemma status_label_replaces_first_hyphen_witness :
  TaskCard.status_label "in-progress" = "in progress"
  /\ TaskCard.status_label "pending" = "pending".
Proof.
  split; [reflexivity|].
  apply (status_label_replaces_first_hyphen "pending"). reflexivity.
Defined.

(** ** What requests do to the database *)

Section EffectFacts.

Variable regex_i : string -> option (string -> bool).

(** X5.  A request that is not answered with 200 or 201 leaves the
    database exactly as it was: no refusal and no error has a side
    effect. *)
Theorem failures_change_nothing
    (now : Z) (db : database) (u : Identity.t) (r : Routes.request) :
  succeeded (fst (Routes.handle regex_i now db u r)) = false ->
  snd (Routes.handle regex_i now db u r) = db.
Proof.
  destruct r as [s st | id | b | id b | id]; simpl; try reflexivity.
  - destruct (post_task_cases now db u b) as [(o & -> & _) | (t & _ & ->)];
      [reflexivity|discriminate].
  - destruct (put_task_cases now db u id b)
      as [-> | [-> | (found & d & _ & -> & _)]]; try reflexivity.
    destruct (save_and_reply_cases now d db) as [(e & ->) | (t & _ & ->)];
      [reflexivity|discriminate].
  - destruct (delete_task_cases db u id) as [(_ & ->) | (t & _ & ->)];
      [reflexivity|discriminate].
Qed.

(** X6.  Whatever the request, a task stored afterwards either was stored
    before under the same identifier with the same owner and creation
    stamp, or it is the task a create request just stored for its caller:
    no request changes the owner, the identifier or the creation stamp of
    a task. *)
Theorem requests_keep_identity_fields
    (now : Z) (db : database) (u : Identity.t) (r : Routes.request)
    (t' : Task.t) :
  In t' (tasks (snd (Routes.handle regex_i now db u r))) ->
  (exists t,
     In t (tasks db)
     /\ Task._id t = Task._id t'
     /\ Task.user t = Task.user t'
     /\ Task.createdAt t = Task.createdAt t')
  \/ (exists b,
        r = Routes.PostTask b
        /\ Task._id t' = next_id db
        /\ Task.user t' = Identity._id u
        /\ Task.createdAt t' = now).
Proof.
  assert (Hsame : In t' (tasks db) ->
    exists t, In t (tasks db) /\ Task._id t = Task._id t'
              /\ Task.user t = Task.user t'
              /\ Task.createdAt t = Task.createdAt t') by (intros; eauto).
  destruct r as [s st | id | b | id b | id]; simpl; auto.
  - destruct (post_task_cases now db u b) as [(o & -> & _) | (t & Hv & ->)];
      simpl; [auto|].
    intros Hin. apply in_app_or in Hin. destruct Hin as [Hin | [<- | []]]; [auto|].
    right. exists b. apply validate_inr in Hv.
    destruct Hv as (_ & _ & _ & _ & ->). repeat split.
  - destruct (put_task_cases now db u id b)
      as [-> | [-> | (found & d & Hfind & -> & Hid & Hdu & Hdc & _)]]; auto.
    destruct (save_and_reply_cases now d db) as [(e & ->) | (t & Hv & ->)];
      simpl; [auto|].
    intros Hin. apply replace_in in Hin. destruct Hin as [-> | (Hin & _)]; [|auto].
    left. exists found. apply findOne_some in Hfind. destruct Hfind as (Hf & _).
    apply validate_inr in Hv. destruct Hv as (_ & _ & _ & _ & ->). simpl.
    repeat split; try assumption; congruence.
  - destruct (delete_task_cases db u id) as [(_ & ->) | (t & _ & ->)];
      simpl; [auto|].
    intros Hin. apply remove_first_subset in Hin. auto.
Qed.

End EffectFacts.

(** Witness of X5: Bob's update of Alice's task is refused. *)
Lemma failures_change_nothing_witness :
  snd (Routes.handle Sample.regex_i 50 Sample.db Sample.B
         (Routes.PutTask 0 (Routes.mkBody (Js.Str "mine") Js.Undefined Js.Undefined)))
  = Sample.db.
Proof.
  apply (failures_change_nothing Sample.regex_i 50 Sample.db Sample.B). reflexivity.
Defined.

(** Witness of X6: after Alice creates a task, the first sample task is
    stored with its identity fields. *)
Lemma requests_keep_identity_fields_witness :
  exists t,
    In t (tasks Sample.db)
    /\ Task._id t = 0 /\ Task.user t = 1 /\ Task.createdAt t = 10%Z.
Proof.
  destruct (requests_keep_identity_fields Sample.regex_i 50 Sample.db Sample.A
              (Routes.PostTask (Routes.mkBody (Js.Str "new") Js.Undefined Js.Undefined))
              Sample.task1)
    as [(t & Hin & Hid & Hu & Hc) | (b & _ & Hid & _)].
  - simpl. auto.
  - exists t. repeat split; assumption.
  - discriminate Hid.
Defined.

(** ** Creating *)

Lemma validate_new_doc_elsewhere (id id' : ObjectId) (now now' : Z)
    (ttl descr st : Js.value) (owner : ObjectId) (t : Task.t) :
  Schema.validate (Schema.new_doc id now ttl descr st owner) = inr t ->
  Schema.validate (Schema.new_doc id' now' ttl descr st owner)
  = inr (Task.mk id' (Task.title t) (Task.description t) (Task.status t)
                 owner now' now').
Proof.
  unfold Schema.validate, Schema.title_ok, Schema.status_ok, Schema.new_doc.
  cbn [Schema.title Schema.status Schema._id Schema.description Schema.user
       Schema.createdAt Schema.updatedAt].
  destruct (option_map Str.trim (Schema.castString ttl)) as [a|]; [|discriminate].
  destruct (match st with Js.Undefined => Some "pending" | _ => Schema.castString st end)
    as [b|]; [|discriminate].
  destruct (negb (Str.is_empty a) && existsb (String.eqb b) Schema.statuses);
    [|discriminate].
  intros H. injection H as <-. reflexivity.
Qed.

(** X7.  A create answered with 201 stores, at the end of the collection
    and under a fresh identifier, a task owned by the caller with both
    stamps set to the time of the call, the trimmed title, and the given
    description and status or their defaults (empty, [pending]) when they
    are falsy; the single-task lookup by the caller then returns that very
    task and the caller's list holds it. *)
Theorem create_round_trip
    (regex_i : string -> option (string -> bool))
    (now : Z) (db db' : database) (u : Identity.t) (b : Routes.body)
    (msg : string) (t : Task.t) :
  well_formed db ->
  Routes.post_task now db u b = (Routes.Json 201 (Routes.MessageTask msg t), db') ->
  Task._id t = next_id db
  /\ Task.user t = Identity._id u
  /\ Task.createdAt t = now /\ Task.updatedAt t = now
  /\ option_map Str.trim (Schema.castString (Routes.title b)) = Some (Task.title t)
  /\ Task.description t =
       (if Js.truthy (Routes.description b)
        then Schema.castString (Routes.description b) else Some "")
  /\ Some (Task.status t) =
       (if Js.truthy (Routes.status b)
        then Schema.castString (Routes.status b) else Some "pending")
  /\ db' = mkDb (tasks db ++ [t]) (S (next_id db))
  /\ Routes.get_task db' u (Task._id t) = Routes.Json 200 (Routes.TaskOnly t)
  /\ In t (Routes.disclosed (Routes.get_tasks regex_i db' u None None)).
Proof.
  intros Hwf Hpost.
  pose proof (post_task_well_formed now db u b Hwf) as Hwf'.
  rewrite Hpost in Hwf'. simpl in Hwf'. destruct Hwf' as (Hu' & _).
  destruct (post_task_cases now db u b) as [(o & E & Hd) | (x & Hv & E)];
    rewrite E in Hpost.
  - injection Hpost as -> _. discriminate Hd.
  - injection Hpost as _ <- <-.
    pose proof (validate_inr _ _ Hv) as (Ht & _ & Hs & _ & Heq).
    assert (Hid : Task._id x = next_id db) by (rewrite Heq; reflexivity).
    assert (Hown : Task.user x = Identity._id u) by (rewrite Heq; reflexivity).
    assert (Hin : In x (tasks db ++ [x])) by (apply in_or_app; right; simpl; auto).
    repeat split; try (rewrite Heq; reflexivity); try assumption.
    + rewrite Heq. cbn [Task.description Schema.description Schema.new_doc].
      unfold Js.or. destruct (Js.truthy (Routes.description b)) eqn:Ed.
      * destruct (Routes.description b); try discriminate Ed; reflexivity.
      * reflexivity.
    + rewrite <- Hs. cbn [Schema.status Schema.new_doc].
      unfold Js.or. destruct (Js.truthy (Routes.status b)) eqn:Es.
      * destruct (Routes.status b); try discriminate Es; reflexivity.
      * reflexivity.
    + unfold Routes.get_task. rewrite <- Hown.
      cbn [tasks]. now rewrite (findOne_owner (tasks db ++ [x]) x Hu' Hin).
    + rewrite get_tasks_query. unfold Model.find_sorted. simpl.
      apply sort_newest_first_In. apply filter_In. split; [exact Hin|].
      unfold Model.satisfies. simpl. rewrite Hown, Nat.eqb_refl. reflexivity.
Qed.

(** Witness of X7: Bob creates a task with a padded title and no status. *)
Lemma create_round_trip_witness :
  Routes.get_task
    (mkDb (tasks Sample.db ++ [Task.mk 3 "T" (Some "") "pending" 2 50 50]) 4)
    Sample.B 3
  = Routes.Json 200 (Routes.TaskOnly (Task.mk 3 "T" (Some "") "pending" 2 50 50)).
Proof.
  assert (Hwf : well_formed Sample.db).
  { split; [distinct_ids|]. split.
    - repeat constructor.
    - repeat constructor; simpl; auto; discriminate. }
  apply (create_round_trip Sample.regex_i 50 Sample.db
           (mkDb (tasks Sample.db ++ [Task.mk 3 "T" (Some "") "pending" 2 50 50]) 4)
           Sample.B (Routes.mkBody (Js.Str " T ") Js.Undefined Js.Null)
           "Task created successfully"
           (Task.mk 3 "T" (Some "") "pending" 2 50 50) Hwf eq_refl).
Defined.

(** X8.  Creating is not idempotent: when a create is answered with 201,
    the same body sent again by the same caller is answered with 201 too
    and stores a second task with the next identifier and the same title,
    description, status and owner. *)
Theorem create_twice_stores_two
    (now now' : Z) (db db' : database) (u : Identity.t) (b : Routes.body)
    (msg : string) (t : Task.t) :
  Routes.post_task now db u b = (Routes.Json 201 (Routes.MessageTask msg t), db') ->
  exists t',
    Routes.post_task now' db' u b
      = (Routes.Json 201 (Routes.MessageTask msg t'),
         mkDb (tasks db ++ [t; t']) (S (S (next_id db))))
    /\ Task._id t' = S (Task._id t)
    /\ Task.title t' = Task.title t
    /\ Task.description t' = Task.description t
    /\ Task.status t' = Task.status t
    /\ Task.user t' = Task.user t.
Proof.
  intros Hpost.
  destruct (post_task_cases now db u b) as [(o & E & Hd) | (x & Hv & E)];
    rewrite E in Hpost.
  - injection Hpost as -> _. discriminate Hd.
  - injection Hpost as <- <- <-.
    pose proof (validate_new_doc_elsewhere _ (S (next_id db)) _ now' _ _ _ _ _ Hv)
      as Hv'.
    pose proof (validate_inr _ _ Hv) as (_ & _ & _ & _ & Heq).
    eexists. split.
    + unfold Routes.post_task in *.
      destruct (negb (Js.truthy (Routes.title b))); [discriminate E|].
      unfold Model.create. cbn [next_id tasks]. rewrite Hv'.
      rewrite <- app_assoc. reflexivity.
    + rewrite Heq. repeat split.
Qed.

(** Witness of X8: Bob sends the same body twice. *)
Lemma create_twice_stores_two_witness :
  exists t',
    Routes.post_task 60
      (mkDb (tasks Sample.db ++ [Task.mk 3 "T" (Some "") "pending" 2 50 50]) 4)
      Sample.B (Routes.mkBody (Js.Str "T") Js.Undefined Js.Undefined)
    = (Routes.Json 201 (Routes.MessageTask "Task created successfully" t'),
       mkDb (tasks Sample.db ++ [Task.mk 3 "T" (Some "") "pending" 2 50 50; t']) 5)
    /\ Task._id t' = 4.
Proof.
  destruct (create_twice_stores_two 50 60 Sample.db
              (mkDb (tasks Sample.db ++ [Task.mk 3 "T" (Some "") "pending" 2 50 50]) 4)
              Sample.B (Routes.mkBody (Js.Str "T") Js.Undefined Js.Undefined)
              "Task created successfully"
              (Task.mk 3 "T" (Some "") "pending" 2 50 50) eq_refl)
    as (t' & Hpost & Hid & _).
  exists t'. split; [exact Hpost|exact Hid].
Defined.

(** ** Deleting and updating *)

Lemma remove_first_length (p : Task.t -> bool) (coll : list Task.t) (x : Task.t) :
  find p coll = Some x ->
  S (List.length (Model.remove_first p coll)) = List.length coll.
Proof.
  induction coll as [|h rest IH]; simpl; [discriminate|].
  destruct (p h); [reflexivity|]. intros H. simpl. now rewrite IH.
Qed.

Lemma filter_other_ids_all (id : ObjectId) (coll : list Task.t) :
  ~ In id (map Task._id coll) ->
  filter (fun t => negb (Nat.eqb (Task._id t) id)) coll = coll.
Proof.
  induction coll as [|h rest IH]; simpl; [reflexivity|].
  intros Hnot. destruct (Nat.eqb (Task._id h) id) eqn:E.
  - apply Nat.eqb_eq in E. exfalso. apply Hnot. now left.
  - simpl. rewrite IH; [reflexivity|]. intros Hin. apply Hnot. now right.
Qed.

(** With unique identifiers, removing the first match of an identifier
    and owner is removing every task with that identifier. *)
Lemma remove_first_filter (id owner : ObjectId) (coll : list Task.t) (x : Task.t) :
  NoDup (map Task._id coll) ->
  Model.findOne (Model.by_id_and_user id owner) coll = Some x ->
  Model.remove_first (Model.satisfies (Model.by_id_and_user id owner) None) coll
  = filter (fun t => negb (Nat.eqb (Task._id t) id)) coll.
Proof.
  unfold Model.findOne.
  induction coll as [|h rest IH]; simpl; [discriminate|].
  intros Hnd. inversion Hnd as [|? ? Hnotin Hrest]; subst.
  destruct (Model.satisfies _ None h) eqn:Hsat.
  - intros _. apply satisfies_id_user in Hsat. destruct Hsat as (Hid & _).
    rewrite Hid, Nat.eqb_refl. simpl. symmetry. apply filter_other_ids_all.
    now rewrite <- Hid.
  - intros Hfind. destruct (Nat.eqb (Task._id h) id) eqn:E.
    + apply Nat.eqb_eq in E. apply find_some in Hfind.
      destruct Hfind as (Hx & Hs). apply satisfies_id_user in Hs.
      destruct Hs as (Hxid & _). exfalso. apply Hnotin.
      rewrite E, <- Hxid. now apply in_map.
    + simpl. f_equal. now apply IH.
Qed.

(** X9.  With unique identifiers, a delete answered with 200 removes the
    caller's task with that identifier and nothing else: the other tasks
    stay in their order, the collection is one shorter, and the caller's
    lookup of the identifier answers not found afterwards. *)
Theorem delete_removes_exactly_that_task
    (db db' : database) (u : Identity.t) (id : ObjectId) (payload : Routes.json) :
  unique_ids db ->
  Routes.delete_task db u id = (Routes.Json 200 payload, db') ->
  exists x,
    In x (tasks db)
    /\ Task._id x = id
    /\ Task.user x = Identity._id u
    /\ tasks db' = filter (fun t => negb (Nat.eqb (Task._id t) id)) (tasks db)
    /\ next_id db' = next_id db
    /\ S (List.length (tasks db')) = List.length (tasks db)
    /\ Routes.get_task db' u id = Routes.not_found.
Proof.
  intros Hu Hdel.
  destruct (delete_task_cases db u id) as [(_ & E) | (x & Hfind & E)];
    rewrite E in Hdel; [discriminate|].
  injection Hdel as _ <-.
  pose proof (findOne_some _ _ _ _ Hfind) as (Hin & Hid & Hown).
  exists x. repeat split; try assumption.
  - simpl. now apply (remove_first_filter id (Identity._id u) (tasks db) x).
  - simpl. now apply (remove_first_length _ _ x).
  - unfold Routes.get_task. simpl.
    destruct (Model.findOne _ (Model.remove_first _ _)) as [y|] eqn:Ey;
      [|reflexivity].
    apply findOne_some in Ey. destruct Ey as (Hy & Hyid & _).
    now destruct (remove_first_by_id id (Identity._id u) (tasks db) x y Hu Hfind Hy).
Qed.

(** Witness of X9: Alice deletes her second task. *)
Lemma delete_removes_exactly_that_task_witness :
  exists x,
    In x (tasks Sample.db)
    /\ Task._id x = 1
    /\ Routes.get_task (mkDb [Sample.task1; Sample.task3] 3) Sample.A 1
       = Routes.not_found.
Proof.
  assert (Hu : unique_ids Sample.db) by distinct_ids.
  destruct (delete_removes_exactly_that_task Sample.db
              (mkDb [Sample.task1; Sample.task3] 3) Sample.A 1
              (Routes.Message "Task deleted successfully") Hu eq_refl)
    as (x & Hin & Hid & _ & _ & _ & _ & Hget).
  exists x. repeat split; assumption.
Defined.

(** X10.  With unique identifiers, after an update answered with 200 the
    caller's lookup of the identifier returns the saved task, as answered
    by the update, and identifiers are still unique. *)
Theorem update_round_trip
    (now : Z) (db db' : database) (u : Identity.t) (id : ObjectId)
    (b : Routes.body) (msg : string) (saved : Task.t) :
  unique_ids db ->
  Routes.put_task now db u id b
    = (Routes.Json 200 (Routes.MessageTask msg saved), db') ->
  Routes.get_task db' u id = Routes.Json 200 (Routes.TaskOnly saved)
  /\ unique_ids db'.
Proof.
  intros Hu Hput.
  destruct (put_task_cases now db u id b)
    as [E | [E | (found & d & Hfind & E & Hid & Hdu & _)]];
    rewrite E in Hput; try discriminate.
  apply save_and_reply_200 in Hput.
  destruct Hput as (_ & _ & Hsid & _ & Hsu & _ & _ & ->).
  apply findOne_some in Hfind. destruct Hfind as (Hin & Hfid & Hfu).
  assert (Hu' : NoDup (map Task._id (Model.replace saved (tasks db))))
    by (rewrite replace_ids; exact Hu).
  assert (Hs : In saved (Model.replace saved (tasks db))).
  { apply replace_puts. rewrite Hsid, Hid. now apply in_map. }
  split; [|exact Hu'].
  unfold Routes.get_task. simpl.
  replace id with (Task._id saved) by congruence.
  replace (Identity._id u) with (Task.user saved) by congruence.
  now rewrite (findOne_owner _ saved Hu' Hs).
Qed.

(** Witness of X10: Alice renames her first task. *)
Lemma update_round_trip_witness :
  Routes.get_task
    (mkDb [Task.mk 0 "renamed" (Some "") "pending" 1 10 50;
           Sample.task2; Sample.task3] 3)
    Sample.A 0
  = Routes.Json 200
      (Routes.TaskOnly (Task.mk 0 "renamed" (Some "") "pending" 1 10 50)).
Proof.
  assert (Hu : unique_ids Sample.db) by distinct_ids.
  apply (update_round_trip 50 Sample.db
           (mkDb [Task.mk 0 "renamed" (Some "") "pending" 1 10 50;
                  Sample.task2; Sample.task3] 3)
           Sample.A 0
           (Routes.mkBody (Js.Str " renamed ") Js.Undefined Js.Undefined)
           "Task updated successfully"
           (Task.mk 0 "renamed" (Some "") "pending" 1 10 50) Hu eq_refl).
Defined.

(** X11.  The status has no order: in a well-formed database the owner
    can set the status of a task to any of the three values, whatever it
    was; the update is answered with 200 and changes the status and the
    updated stamp only. *)
Theorem status_can_move_anywhere
    (now : Z) (db : database) (u : Identity.t) (x : Task.t) (s : string) :
  well_formed db ->
  In x (tasks db) ->
  Task.user x = Identity._id u ->
  In s Routes.status_literals ->
  let x' := Task.mk (Task._id x) (Task.title x) (Task.description x) s
                    (Task.user x) (Task.createdAt x) now in
  Routes.put_task now db u (Task._id x)
    (Routes.mkBody Js.Undefined Js.Undefined (Js.Str s))
  = (Routes.Json 200 (Routes.MessageTask "Task updated successfully" x'),
     mkDb (Model.replace x' (tasks db)) (next_id db)).
Proof.
  intros (Hu & _ & Hok) Hin Hown Hs x'.
  assert (Hx : task_ok x) by (rewrite Forall_forall in Hok; auto).
  destruct Hx as (_ & Hne & _).
  apply existsb_eqb_In in Hs.
  unfold Routes.put_task. rewrite <- Hown, (findOne_owner _ x Hu Hin).
  cbn [Routes.title Routes.description Routes.status Js.defined Js.includes].
  rewrite Hs.
  unfold Routes.save_and_reply, Model.save, Schema.validate,
    Schema.title_ok, Schema.status_ok.
  cbn [Schema.set_status Schema.of_task Schema.title Schema.status
       Schema.castString Schema._id Schema.description Schema.user
       Schema.createdAt Schema.updatedAt].
  apply is_empty_false in Hne. rewrite Hne.
  change Schema.statuses with Routes.status_literals. rewrite Hs.
  reflexivity.
Qed.

(** Witness of X11: Alice moves her in-progress task back to pending. *)
Lemma status_can_move_anywhere_witness :
  fst (Routes.put_task 50 Sample.db Sample.A 1
         (Routes.mkBody Js.Undefined Js.Undefined (Js.Str "pending")))
  = Routes.Json 200
      (Routes.MessageTask "Task updated successfully"
         (Task.mk 1 "Write report" (Some "") "pending" 1 20 50)).
Proof.
  assert (Hwf : well_formed Sample.db).
  { split; [distinct_ids|]. split.
    - repeat constructor.
    - repeat constructor; simpl; auto; discriminate. }
  assert (Hin : In Sample.task2 (tasks Sample.db)) by (simpl; auto).
  assert (Hs : In "pending" Routes.status_literals) by (simpl; auto).
  exact (f_equal fst
           (status_can_move_anywhere 50 Sample.db Sample.A Sample.task2 "pending"
              Hwf Hin eq_refl Hs)).
Defined.

(** ** Listing, further *)

Lemma get_tasks_disclosed (regex_i : string -> option (string -> bool))
    (db : database) (u : Identity.t) (search status : option string) :
  Routes.disclosed (Routes.get_tasks regex_i db u search status)
  = match Model.find_sorted regex_i
            (Model.mkQuery None (Identity._id u)
               match search with
               | Some term => if Str.is_empty term then None else Some term
               | None => None
               end
               match status with
               | Some st =>
                   if existsb (String.eqb st) Schema.statuses then Some st else None
               | None => None
               end)
            (tasks db) with
    | inl _ => []
    | inr found => found
    end.
Proof.
  rewrite get_tasks_query. now destruct (Model.find_sorted _ _ _).
Qed.

Lemma filter_length_le (p q : Task.t -> bool) (l : list Task.t) :
  (forall t, p t = true -> q t = true) ->
  List.length (filter p l) <= List.length (filter q l).
Proof.
  intros Himp. induction l as [|h rest IH]; simpl; [lia|].
  destruct (p h) eqn:Ep.
  - rewrite (Himp h Ep). simpl. lia.
  - destruct (q h); simpl; lia.
Qed.

Lemma filter_ids_distinct (p : Task.t -> bool) (l : list Task.t) :
  NoDup (map Task._id l) -> NoDup (map Task._id (filter p l)).
Proof.
  induction l as [|h rest IH]; simpl; [trivial|].
  intros Hnd. inversion Hnd as [|? ? Hnotin Hrest]; subst.
  destruct (p h); [|now apply IH]. simpl. constructor; [|now apply IH].
  intros Hin. apply Hnotin. apply in_map_iff in Hin.
  destruct Hin as (t & Hid & Ht). apply filter_In in Ht.
  rewrite <- Hid. apply in_map. tauto.
Qed.

Lemma satisfies_with_status (owner : ObjectId) (ttl : option string)
    (m : option (string -> bool)) (st : string) (t : Task.t) :
  Model.satisfies (Model.mkQuery None owner ttl (Some st)) m t
  = Model.satisfies (Model.mkQuery None owner ttl None) m t
    && String.eqb (Task.status t) st.
Proof. unfold Model.satisfies. simpl. now rewrite andb_true_r. Qed.

Lemma filter_status_partition (q : Task.t -> bool) (l : list Task.t) :
  Forall (fun t => In (Task.status t) Schema.statuses) l ->
  Permutation (filter q l)
    (filter (fun t => q t && String.eqb (Task.status t) "pending") l
     ++ filter (fun t => q t && String.eqb (Task.status t) "in-progress") l
     ++ filter (fun t => q t && String.eqb (Task.status t) "completed") l).
Proof.
  induction 1 as [|h rest Hh _ IH]; simpl; [reflexivity|].
  destruct (q h); simpl; [|exact IH].
  destruct Hh as [<- | [<- | [<- | []]]]; simpl.
  - now apply perm_skip.
  - rewrite IH. apply Permutation_middle.
  - rewrite IH, !app_assoc. apply Permutation_middle.
Qed.

Section ListFacts.

Variable regex_i : string -> option (string -> bool).

(** X12.  A status filter that is none of the three values is ignored:
    the answer is the one of the request without a status filter. *)
Theorem list_ignores_unknown_status
    (db : database) (u : Identity.t) (search : option string) (st : string) :
  ~ In st Routes.status_literals ->
  Routes.get_tasks regex_i db u search (Some st)
  = Routes.get_tasks regex_i db u search None.
Proof.
  intros Hnot. rewrite !get_tasks_query.
  destruct (existsb (String.eqb st) Schema.statuses) eqn:E; [|reflexivity].
  apply existsb_eqb_In in E. contradiction.
Qed.

(** X13.  Filters only narrow: every task of a filtered list answer is in
    the caller's unfiltered list and in the list for the same search term
    without the status filter; the count is the number of tasks answered
    and is at most the unfiltered count. *)
Theorem list_filters_only_narrow
    (db : database) (u : Identity.t) (search status : option string)
    (n : nat) (found : list Task.t) :
  Routes.get_tasks regex_i db u search status
    = Routes.Json 200 (Routes.CountTasks n found) ->
  n = List.length found
  /\ (forall t, In t found ->
        In t (Routes.disclosed (Routes.get_tasks regex_i db u None None))
        /\ In t (Routes.disclosed (Routes.get_tasks regex_i db u search None)))
  /\ n <= List.length (Routes.disclosed (Routes.get_tasks regex_i db u None None)).
Proof.
  intros Hget. rewrite get_tasks_query in Hget.
  destruct (Model.find_sorted regex_i _ (tasks db)) as [e|f] eqn:Hfs;
    [discriminate|].
  injection Hget as <- <-.
  rewrite !get_tasks_disclosed.
  unfold Model.find_sorted in *. cbn [Model.q_title] in *.
  set (ttl := match search with
              | Some term => if Str.is_empty term then None else Some term
              | None => None
              end) in *.
  set (sts := match status with
              | Some st =>
                  if existsb (String.eqb st) Schema.statuses then Some st else None
              | None => None
              end) in *.
  assert (Hall : forall m t,
    Model.satisfies (Model.mkQuery None (Identity._id u) ttl sts) m t = true ->
    Model.satisfies (Model.mkQuery None (Identity._id u) None None) None t = true
    /\ Model.satisfies (Model.mkQuery None (Identity._id u) ttl None) m t = true).
  { intros m t. unfold Model.satisfies. cbn.
    rewrite !andb_true_iff. intros ((Hu' & Hm) & _). auto. }
  assert (Hmain : forall m,
    f = Model.sort_newest_first
          (filter (Model.satisfies
                     (Model.mkQuery None (Identity._id u) ttl sts) m) (tasks db)) ->
    (forall t, In t f ->
       In t (Model.sort_newest_first
               (filter (Model.satisfies
                          (Model.mkQuery None (Identity._id u) None None) None)
                       (tasks db)))
       /\ In t (Model.sort_newest_first
                  (filter (Model.satisfies
                             (Model.mkQuery None (Identity._id u) ttl None) m)
                          (tasks db))))
    /\ List.length f
       <= List.length
            (Model.sort_newest_first
               (filter (Model.satisfies
                          (Model.mkQuery None (Identity._id u) None None) None)
                       (tasks db)))).
  { intros m ->. split.
    - intros t. rewrite !sort_newest_first_In, !filter_In.
      intros (Hin & Hsat). destruct (Hall m t Hsat). auto.
    - rewrite !(Permutation_length (sort_newest_first_perm _)).
      apply filter_length_le. intros t Hsat. now destruct (Hall m t Hsat). }
  split; [reflexivity|].
  destruct ttl as [term|].
  - destruct (regex_i term) as [m|]; [|discriminate Hfs].
    injection Hfs as Hf. exact (Hmain (Some m) (eq_sym Hf)).
  - injection Hfs as Hf. exact (Hmain None (eq_sym Hf)).
Qed.

(** X14.  When every stored status is one of the three values, the lists
    for the three status filters together are the list without a status
    filter, for the same caller and search term: no task is missed and
    none is listed twice. *)
Theorem list_partitions_by_status
    (db : database) (u : Identity.t) (search : option string) :
  Forall (fun t => In (Task.status t) Schema.statuses) (tasks db) ->
  Permutation
    (Routes.disclosed (Routes.get_tasks regex_i db u search None))
    (Routes.disclosed (Routes.get_tasks regex_i db u search (Some "pending"))
     ++ Routes.disclosed (Routes.get_tasks regex_i db u search (Some "in-progress"))
     ++ Routes.disclosed (Routes.get_tasks regex_i db u search (Some "completed"))).
Proof.
  intros Hst. rewrite !get_tasks_disclosed. unfold Model.find_sorted.
  cbn [Model.q_title existsb Schema.statuses String.eqb Ascii.eqb Bool.eqb orb].
  set (ttl := match search with
              | Some term => if Str.is_empty term then None else Some term
              | None => None
              end).
  assert (Hmain : forall m,
    Permutation
      (Model.sort_newest_first
         (filter (Model.satisfies (Model.mkQuery None (Identity._id u) ttl None) m)
                 (tasks db)))
      (Model.sort_newest_first
         (filter (Model.satisfies
                    (Model.mkQuery None (Identity._id u) ttl (Some "pending")) m)
                 (tasks db))
       ++ Model.sort_newest_first
            (filter (Model.satisfies
                       (Model.mkQuery None (Identity._id u) ttl (Some "in-progress")) m)
                    (tasks db))
       ++ Model.sort_newest_first
            (filter (Model.satisfies
                       (Model.mkQuery None (Identity._id u) ttl (Some "completed")) m)
                    (tasks db)))).
  { intros m. rewrite !sort_newest_first_perm.
    rewrite (filter_status_partition _ _ Hst).
    repeat (apply Permutation_app;
            [apply Permutation_refl'; apply filter_ext; intros t;
             symmetry; apply satisfies_with_status|]);
      apply Permutation_refl'; apply filter_ext; intros t;
      symmetry; apply satisfies_with_status. }
  destruct ttl as [term|]; [destruct (regex_i term) as [m|]|];
    [apply Hmain | reflexivity | apply Hmain].
Qed.

(** X15.  With unique identifiers, the caller's unfiltered list holds a
    task exactly when the caller's lookup of its identifier returns it. *)
Theorem list_and_lookup_agree
    (db : database) (u : Identity.t) (t : Task.t) :
  unique_ids db ->
  (In t (Routes.disclosed (Routes.get_tasks regex_i db u None None))
   <-> Routes.get_task db u (Task._id t) = Routes.Json 200 (Routes.TaskOnly t)).
Proof.
  intros Hu. rewrite get_tasks_disclosed. unfold Model.find_sorted. simpl.
  rewrite sort_newest_first_In, filter_In. unfold Routes.get_task. split.
  - intros (Hin & Hsat). apply satisfies_user in Hsat. simpl in Hsat.
    rewrite <- Hsat. now rewrite (findOne_owner _ t Hu Hin).
  - destruct (Model.findOne _ (tasks db)) as [x|] eqn:E; [|discriminate].
    intros H. injection H as ->. apply findOne_some in E.
    destruct E as (Hin & _ & Hown). split; [assumption|].
    unfold Model.satisfies. simpl. rewrite Hown, Nat.eqb_refl. reflexivity.
Qed.

(** X16.  With unique identifiers a list answer never repeats a task: the
    identifiers in it are pairwise distinct. *)
Theorem list_answers_distinct_tasks
    (db : database) (u : Identity.t) (search status : option string)
    (n : nat) (found : list Task.t) :
  unique_ids db ->
  Routes.get_tasks regex_i db u search status
    = Routes.Json 200 (Routes.CountTasks n found) ->
  NoDup (map Task._id found).
Proof.
  intros Hu Hget.
  assert (Hd : Routes.disclosed (Routes.get_tasks regex_i db u search status) = found)
    by (rewrite Hget; reflexivity).
  rewrite get_tasks_disclosed in Hd. unfold Model.find_sorted in Hd.
  assert (Hmain : forall q m,
    NoDup (map Task._id
             (Model.sort_newest_first (filter (Model.satisfies q m) (tasks db))))).
  { intros q m.
    apply (Permutation_NoDup
             (Permutation_map Task._id
                (Permutation_sym (sort_newest_first_perm _)))).
    now apply filter_ids_distinct. }
  destruct (Model.q_title _) as [term|]; [destruct (regex_i term) as [m|]|];
    subst found; try apply Hmain. constructor.
Qed.

End ListFacts.

(** Witness of X12: the status filter [archived]. *)
Lemma list_ignores_unknown_status_witness :
  Routes.get_tasks Sample.regex_i Sample.db Sample.A None (Some "archived")
  = Routes.get_tasks Sample.regex_i Sample.db Sample.A None None.
Proof.
  apply (list_ignores_unknown_status Sample.regex_i Sample.db Sample.A None
           "archived").
  simpl. intuition discriminate.
Defined.

(** Witness of X13: Alice's list for the term [rep]. *)
Lemma list_filters_only_narrow_witness :
  1 = List.length [Sample.task2]
  /\ 1 <= List.length
            (Routes.disclosed
               (Routes.get_tasks Sample.regex_i Sample.db Sample.A None None)).
Proof.
  destruct (list_filters_only_narrow Sample.regex_i Sample.db Sample.A
              (Some "rep") None 1 [Sample.task2] eq_refl) as (Hn & _ & Hle).
  split; assumption.
Defined.

(** Witness of X14: Alice's lists by status. *)
Lemma list_partitions_by_status_witness :
  Permutation
    (Routes.disclosed (Routes.get_tasks Sample.regex_i Sample.db Sample.A None None))
    (Routes.disclosed
       (Routes.get_tasks Sample.regex_i Sample.db Sample.A None (Some "pending"))
     ++ Routes.disclosed
          (Routes.get_tasks Sample.regex_i Sample.db Sample.A None (Some "in-progress"))
     ++ Routes.disclosed
          (Routes.get_tasks Sample.regex_i Sample.db Sample.A None (Some "completed"))).
Proof.
  apply (list_partitions_by_status Sample.regex_i Sample.db Sample.A None).
  repeat (apply Forall_cons; [simpl; auto 6|]). apply Forall_nil.
Defined.

(** Witness of X15: Alice's second task is listed and can be looked up. *)
Lemma list_and_lookup_agree_witness :
  Routes.get_task Sample.db Sample.A 1 = Routes.Json 200 (Routes.TaskOnly Sample.task2).
Proof.
  assert (Hu : unique_ids Sample.db) by distinct_ids.
  apply (list_and_lookup_agree Sample.regex_i Sample.db Sample.A Sample.task2 Hu).
  simpl. auto.
Defined.

(** Witness of X16: Alice's unfiltered list. *)
Lemma list_answers_distinct_tasks_witness :
  NoDup (map Task._id [Sample.task2; Sample.task1]).
Proof.
  assert (Hu : unique_ids Sample.db) by distinct_ids.
  exact (list_answers_distinct_tasks Sample.regex_i Sample.db Sample.A None None
           2 [Sample.task2; Sample.task1] Hu eq_refl).
Defined.

(** ** Not found, whatever the reason *)

(** X17.  With unique identifiers, the answers to a lookup, an update and
    a delete of somebody else's task are the answers for an identifier
    that no task has, and the database stays as it is: the routes do not
    tell a foreign task from a missing one. *)
Theorem foreign_task_looks_missing
    (now : Z) (db : database) (u : Identity.t) (x : Task.t)
    (missing : ObjectId) (b : Routes.body) :
  unique_ids db ->
  In x (tasks db) ->
  Task.user x <> Identity._id u ->
  (forall t, In t (tasks db) -> Task._id t <> missing) ->
  Routes.get_task db u (Task._id x) = Routes.get_task db u missing
  /\ Routes.put_task now db u (Task._id x) b = Routes.put_task now db u missing b
  /\ Routes.delete_task db u (Task._id x) = Routes.delete_task db u missing.
Proof.
  intros Hu Hin Hneq Hmiss.
  assert (Hx : Model.findOne (Model.by_id_and_user (Task._id x) (Identity._id u))
                 (tasks db) = None)
    by (apply findOne_stranger; [exact Hu | exact Hin | congruence]).
  assert (Hm : Model.findOne (Model.by_id_and_user missing (Identity._id u))
                 (tasks db) = None).
  { apply findOne_none. intros t Ht (Hid & _). now apply (Hmiss t Ht). }
  unfold Routes.get_task, Routes.put_task, Routes.delete_task,
    Model.findOneAndDelete.
  rewrite Hx, Hm. repeat split.
Qed.

(** Witness of X17: Bob asks for Alice's first task and for identifier 9. *)
Lemma foreign_task_looks_missing_witness :
  Routes.get_task Sample.db Sample.B 0 = Routes.get_task Sample.db Sample.B 9
  /\ Routes.delete_task Sample.db Sample.B 0 = Routes.delete_task Sample.db Sample.B 9.
Proof.
  assert (Hu : unique_ids Sample.db) by distinct_ids.
  assert (Hin : In Sample.task1 (tasks Sample.db)) by (simpl; auto).
  assert (Hneq : Task.user Sample.task1 <> Identity._id Sample.B) by discriminate.
  assert (Hmiss : forall t, In t (tasks Sample.db) -> Task._id t <> 9)
    by (simpl; intros t [<- | [<- | [<- | []]]]; discriminate).
  destruct (foreign_task_looks_missing 50 Sample.db Sample.B Sample.task1 9
              (Routes.mkBody Js.Undefined Js.Undefined Js.Undefined)
              Hu Hin Hneq Hmiss) as (Hg & _ & Hd).
  split; assumption.
Defined.

(** ** Falsy body fields *)

(** X18.  A status that is present but falsy ([null], [false], [0] or the
    empty string) is the default on create and an error on update: the
    create answers as if the status were missing, the update of an owned
    task answers the invalid-status error and stores nothing.  A falsy
    description is likewise the default on create. *)
Theorem falsy_status_default_on_create_error_on_update
    (now : Z) (db : database) (u : Identity.t)
    (ttl descr st : Js.value) (x : Task.t) :
  Js.truthy st = false ->
  Js.defined st = true ->
  In x (tasks db) ->
  Task.user x = Identity._id u ->
  Routes.post_task now db u (Routes.mkBody ttl descr st)
    = Routes.post_task now db u (Routes.mkBody ttl descr Js.Undefined)
  /\ (Js.truthy descr = false ->
      Routes.post_task now db u (Routes.mkBody ttl descr st)
      = Routes.post_task now db u (Routes.mkBody ttl Js.Undefined Js.Undefined))
  /\ Routes.put_task now db u (Task._id x) (Routes.mkBody ttl descr st)
     = (Routes.invalid_status, db).
Proof.
  intros Hf Hd Hin Hown. split; [|split].
  - unfold Routes.post_task, Js.or. simpl. now rewrite Hf.
  - intros Hfd. unfold Routes.post_task, Js.or. simpl. now rewrite Hf, Hfd.
  - destruct (findOne_finds (tasks db) x Hin) as (t & Hfind).
    unfold Routes.put_task. rewrite <- Hown, Hfind. simpl. rewrite Hd.
    destruct st; try discriminate Hd; try reflexivity.
    simpl in Hf. apply negb_false_iff, is_empty_true in Hf. subst. reflexivity.
Qed.

(** Witness of X18: the status [null] sent by Alice. *)
Lemma falsy_status_default_on_create_error_on_update_witness :
  fst (Routes.post_task 50 Sample.db Sample.A
         (Routes.mkBody (Js.Str "T") Js.Undefined Js.Null))
  = Routes.Json 201
      (Routes.MessageTask "Task created successfully"
         (Task.mk 3 "T" (Some "") "pending" 1 50 50))
  /\ Routes.put_task 50 Sample.db Sample.A 0
       (Routes.mkBody (Js.Str "T") Js.Undefined Js.Null)
     = (Routes.invalid_status, Sample.db).
Proof.
  assert (Hin : In Sample.task1 (tasks Sample.db)) by (simpl; auto).
  destruct (falsy_status_default_on_create_error_on_update 50 Sample.db Sample.A
              (Js.Str "T") Js.Undefined Js.Null Sample.task1
              eq_refl eq_refl Hin eq_refl) as (Hpost & _ & Hput).
  split; [rewrite Hpost; reflexivity|exact Hput].
Defined.

(** ** Reachable databases *)

(** X19.  In every database the router can reach from the empty one, the
    identifiers are pairwise distinct and below the next fresh one, and
    every stored status is one of the three values. *)
Theorem reachable_ids_and_statuses
    (regex_i : string -> option (string -> bool)) (db : database) :
  Routes.reachable regex_i db ->
  unique_ids db
  /\ ids_below_next db
  /\ Forall (fun t => In (Task.status t) Routes.status_literals) (tasks db).
Proof.
  intros Hreach. apply reachable_well_formed in Hreach.
  destruct Hreach as (Hu & Hb & Hok). repeat split; try assumption.
  eapply Forall_impl; [|exact Hok]. intros t (_ & _ & Hs). exact Hs.
Qed.

(** Witness of X19: the database after one create by Alice. *)
Lemma reachable_ids_and_statuses_witness :
  Forall (fun t => In (Task.status t) Routes.status_literals)
    (tasks (snd (Routes.handle Sample.regex_i 50 (mkDb [] 0) Sample.A
                   (Routes.PostTask
                      (Routes.mkBody (Js.Str "a") Js.Undefined Js.Undefined))))).
Proof.
  apply (reachable_ids_and_statuses Sample.regex_i).
  apply Routes.reachable_step. apply Routes.reachable_empty.
Defined.

(** ** Filters on the client *)

(** X20.  The clear button is rendered exactly when the list request of
    the client carries a parameter; its click empties both fields, after
    which the button is gone and the request carries none. *)
Theorem clear_button_tracks_the_request (search statusFilter : string) :
  (TaskFilters.shows_clear search statusFilter = false
   <-> Api.getAll_params search statusFilter = Api.mkParams None None)
  /\ TaskFilters.shows_clear (fst TaskFilters.clear) (snd TaskFilters.clear) = false
  /\ Api.getAll_params (fst TaskFilters.clear) (snd TaskFilters.clear)
     = Api.mkParams None None.
Proof.
  unfold TaskFilters.shows_clear, Api.getAll_params.
  split; [|split; reflexivity].
  destruct search as [|c s], statusFilter as [|d f]; simpl;
    split; intros H; try reflexivity; discriminate H.
Qed.

Lemma clear_button_tracks_the_request_witness :
  TaskFilters.shows_clear "" "" = false.
Proof.
  exact (proj2 (proj1 (clear_button_tracks_the_request "" "")) eq_refl).
Defined.

(** X21.  The task area of the dashboard hands only a non-empty list to
    the task list, so the task list's own empty notice is never shown;
    with an empty list the notice mentions filters exactly when the clear
    button is rendered, and a non-empty list is shown as one card per
    task, in the order given, keyed by the identifiers. *)
Theorem task_area_cases
    (loading : bool) (found : list Task.t) (search statusFilter : string) :
  Dashboard.task_area loading found search statusFilter
    <> Dashboard.Notice "No tasks found."
  /\ (loading = false -> found <> [] ->
      Dashboard.task_area loading found search statusFilter
      = Dashboard.Cards (map Task._id found) found)
  /\ (loading = false -> found = [] ->
      Dashboard.task_area loading found search statusFilter
      = Dashboard.Notice
          (if TaskFilters.shows_clear search statusFilter
           then "No tasks found matching your filters."
           else "No tasks yet. Create your first task!")).
Proof.
  unfold Dashboard.task_area, Dashboard.TaskList, TaskFilters.shows_clear.
  split; [|split].
  - destruct loading; [discriminate|].
    destruct found as [|t rest]; simpl; [|discriminate].
    destruct (negb _); discriminate.
  - intros -> Hne. destruct found as [|t rest]; [congruence|reflexivity].
  - intros -> ->. reflexivity.
Qed.

Lemma task_area_cases_witness :
  Dashboard.task_area false [Sample.task2; Sample.task1] "" ""
  = Dashboard.Cards [1; 0] [Sample.task2; Sample.task1].
Proof.
  apply (task_area_cases false [Sample.task2; Sample.task1] "" "");
    [reflexivity|discriminate].
Defined.
